(** * HW3/api.py: the scoring API

    A shallow embedding of the request validator, the authentication check,
    the two method handlers and the HTTP adapter of [HW3/api.py], followed by
    the properties of the program that its specification talks about.

    Python values are modelled by the inductive type [pyval]; dictionaries are
    insertion-ordered association lists, as in CPython.  Code that can raise
    runs in a small monad that threads the log of calls made to the scoring
    module ([HW3.scoring], which is an external collaborator). *)

From Stdlib Require Import List String Ascii ZArith Bool Lia Sorted Permutation.
From Stdlib.Strings Require Import Byte.
From Stdlib Require Import NArith.
Import ListNotations.
Open Scope string_scope.
Set Warnings "-register-all".

(** ** The Python runtime, as far as the program uses it *)

Module Py.

(** JSON-shaped Python objects, plus [bytes] (what [hashlib] hashes).
    Floats are not modelled. *)
Inductive pyval : Type :=
| PyNone
| PyBool (b : bool)
| PyInt (n : Z)
| PyStr (s : string)
| PyBytes (b : list byte)
| PyList (l : list pyval)
| PyDict (d : list (pyval * pyval)).

Definition pydict := list (pyval * pyval).

Inductive exn := TypeError | KeyError | AttributeError | IndexError.

(** [bool(v)] *)
Definition truthy (v : pyval) : bool :=
  match v with
  | PyNone => false
  | PyBool b => b
  | PyInt n => negb (n =? 0)%Z
  | PyStr s => negb (s =? "")
  | PyBytes b => match b with [] => false | _ => true end
  | PyList l => match l with [] => false | _ => true end
  | PyDict d => match d with [] => false | _ => true end
  end.

(** [a and b] returns an operand, not a boolean. *)
Definition py_and (a b : pyval) : pyval := if truthy a then b else a.

Definition hashable (v : pyval) : bool :=
  match v with
  | PyList _ | PyDict _ => false
  | _ => true
  end.

Definition bytes_eqb (a b : list byte) : bool :=
  if list_eq_dec Byte.byte_eq_dec a b then true else false.

(** Equality of dictionary keys: [True == 1] and [False == 0]. *)
Definition key_eqb (a b : pyval) : bool :=
  match a, b with
  | PyNone, PyNone => true
  | PyBool x, PyBool y => Bool.eqb x y
  | PyBool x, PyInt n | PyInt n, PyBool x => (n =? (if x then 1 else 0))%Z
  | PyInt n, PyInt m => (n =? m)%Z
  | PyStr s, PyStr t => (s =? t)
  | PyBytes x, PyBytes y => bytes_eqb x y
  | _, _ => false
  end.

(** [v == s] for a string literal [s]. *)
Definition eq_str (v : pyval) (s : string) : bool :=
  match v with
  | PyStr t => (t =? s)
  | _ => false
  end.

Fixpoint dict_lookup (d : pydict) (k : pyval) : option pyval :=
  match d with
  | [] => None
  | (k', v) :: tl => if key_eqb k' k then Some v else dict_lookup tl k
  end.

(** [d[k] = v]: an existing key keeps its place (and its key object). *)
Fixpoint dict_set (d : pydict) (k v : pyval) : pydict :=
  match d with
  | [] => [(k, v)]
  | (k', v') :: tl =>
      if key_eqb k' k then (k', v) :: tl else (k', v') :: dict_set tl k v
  end.

(** [d.get(name)] on a dict *)
Definition dict_get (d : pydict) (name : string) : pyval :=
  match dict_lookup d (PyStr name) with
  | Some v => v
  | None => PyNone
  end.

(** [name in d] *)
Definition dict_contains (d : pydict) (name : string) : bool :=
  match dict_lookup d (PyStr name) with
  | Some _ => true
  | None => false
  end.

(** [o.get(name)]: only dicts have the method. *)
Definition get (o : pyval) (name : string) : pyval + exn :=
  match o with
  | PyDict d => inl (dict_get d name)
  | _ => inr AttributeError
  end.

(** [o[name]] with a string subscript *)
Definition getitem (o : pyval) (name : string) : pyval + exn :=
  match o with
  | PyDict d =>
      match dict_lookup d (PyStr name) with
      | Some v => inl v
      | None => inr KeyError
      end
  | _ => inr TypeError
  end.

Fixpoint chars (s : string) : list pyval :=
  match s with
  | EmptyString => []
  | String c tl => PyStr (String c EmptyString) :: chars tl
  end.

(** [iter(o)], run to the end *)
Definition iter (o : pyval) : list pyval + exn :=
  match o with
  | PyList l => inl l
  | PyStr s => inl (chars s)
  | PyBytes b => inl (map (fun x => PyInt (Z.of_N (Byte.to_N x))) b)
  | PyDict d => inl (map fst d)
  | _ => inr TypeError
  end.

(** [len(o)] *)
Definition len (o : pyval) : Z + exn :=
  match o with
  | PyList l => inl (Z.of_nat (List.length l))
  | PyStr s => inl (Z.of_nat (String.length s))
  | PyBytes b => inl (Z.of_nat (List.length b))
  | PyDict d => inl (Z.of_nat (List.length d))
  | _ => inr TypeError
  end.

(** [a + b] *)
Definition add (a b : pyval) : pyval + exn :=
  let int_of (x : pyval) : option Z :=
    match x with
    | PyInt n => Some n
    | PyBool c => Some (if c then 1 else 0)%Z
    | _ => None
    end in
  match a, b with
  | PyStr s, PyStr t => inl (PyStr (s ++ t))
  | PyBytes s, PyBytes t => inl (PyBytes (s ++ t)%list)
  | PyList s, PyList t => inl (PyList (s ++ t)%list)
  | _, _ =>
      match int_of a, int_of b with
      | Some n, Some m => inl (PyInt (n + m))
      | _, _ => inr TypeError
      end
  end.

End Py.
Import Py.

(** ** Field declarations *)

(** [class Field]: one constraint of a field, e.g. [required=True]. *)
Record Field := mkField { field_type : string; value : bool }.

(** What an attribute of a [BaseField] instance holds: a [Field], or the
    [None] that [__init__] stores under [value]. *)
Inductive attr := AField (f : Field) | ANone.

(** Instance attributes in insertion order ([obj.__dict__]). *)
Fixpoint setattr {A : Type} (d : list (string * A)) (k : string) (v : A)
  : list (string * A) :=
  match d with
  | [] => [(k, v)]
  | (k', v') :: tl =>
      if (k' =? k) then (k', v) :: tl else (k', v') :: setattr tl k v
  end.

Record BaseField := mkBaseField { __dict__ : list (string * attr) }.

(** [BaseField.__init__(self, **kwargs)] *)
Definition BaseField_init (kwargs : list (string * bool)) : BaseField :=
  let d := fold_left
             (fun d kv => setattr d (fst kv) (AField (mkField (fst kv) (snd kv))))
             kwargs [] in
  mkBaseField (setattr d "value" ANone).

(** The subclasses add nothing ([pass]). *)
Definition CharField := BaseField_init.
Definition ArgumentsField := BaseField_init.
Definition EmailField := BaseField_init.
Definition PhoneField := BaseField_init.
Definition DateField := BaseField_init.
Definition BirthDayField := BaseField_init.
Definition GenderField := BaseField_init.
Definition ClientIDsField := BaseField_init.

(** A request class: its attributes in the order of the class body.  An
    attribute is a field descriptor or something else (a property). *)
Inductive member := MField (f : BaseField) | MProperty.
Definition class := list (string * member).

Definition ClientsInterestsRequest : class :=
  [ ("client_ids", MField (ClientIDsField [("required", true)]));
    ("date", MField (DateField [("required", false); ("nullable", true)])) ].

Definition OnlineScoreRequest : class :=
  [ ("first_name", MField (CharField [("required", false); ("nullable", true)]));
    ("last_name", MField (CharField [("required", false); ("nullable", true)]));
    ("email", MField (EmailField [("required", false); ("nullable", true)]));
    ("phone", MField (PhoneField [("required", false); ("nullable", true)]));
    ("birthday", MField (BirthDayField [("required", false); ("nullable", true)]));
    ("gender", MField (GenderField [("required", false); ("nullable", true)])) ].

Definition MethodRequest : class :=
  [ ("account", MField (CharField [("required", false); ("nullable", true)]));
    ("login", MField (CharField [("required", true); ("nullable", true)]));
    ("token", MField (CharField [("required", true); ("nullable", true)]));
    ("arguments", MField (ArgumentsField [("required", true); ("nullable", true)]));
    ("method", MField (CharField [("required", true); ("nullable", false)]));
    ("is_admin", MProperty) ].

(** ** [inspect.getmembers]: the attributes sorted by name *)

Fixpoint insert_member {A : Type} (x : string * A) (l : list (string * A))
  : list (string * A) :=
  match l with
  | [] => [x]
  | y :: tl =>
      if (fst x <=? fst y) then x :: l else y :: insert_member x tl
  end.

(** The attributes every class inherits from [object] are left out: none of
    them is a [BaseField]. *)
Definition getmembers {A : Type} (c : list (string * A)) : list (string * A) :=
  fold_right insert_member [] c.

(** ** [class Validator] *)

(** The two lists a validator accumulates; [obj] and [schema] are read-only
    and passed along. *)
Record Validator := mkValidator {
  errors : list string;
  filled_fields : list string
}.

Definition append_error (self : Validator) (msg : string) : Validator :=
  mkValidator (errors self ++ [msg]) (filled_fields self).

Definition append_filled (self : Validator) (name : string) : Validator :=
  mkValidator (errors self) (filled_fields self ++ [name]).

(** [filter(lambda v: isinstance(v, Field), field.__dict__.values())] *)
Definition constrains_of (field : BaseField) : list Field :=
  flat_map (fun kv => match snd kv with AField f => [f] | ANone => [] end)
           (__dict__ field).

(** One turn of the loop over the constraints in [__validate]. *)
Definition check_constrain (name : string) (v : pyval)
    (self : Validator) (constrain : Field) : Validator :=
  if field_type constrain =? "nullable" then
    if negb (value constrain) then
      if negb (truthy v) then
        append_error self ("Field " ++ name ++ " should be filled")
      else self
    else append_filled self name
  else if field_type constrain =? "required" then
    if value constrain then
      if negb (truthy v) then
        append_error self ("Field " ++ name ++ " should be exists")
      else self
    else self
  else self.

(** [Validator.__validate(self, field, name, obj)] *)
Definition Validator___validate (self : Validator) (field : BaseField)
    (name : string) (obj : pydict) : Validator :=
  let v := dict_get obj name in
  fold_left (check_constrain name v) (constrains_of field) self.

(** [checked_fields]: the members that are [BaseField]s, in the order
    [getmembers] lists them. *)
Definition checked_fields (members : list (string * member))
  : list (string * BaseField) :=
  flat_map (fun x => match snd x with MField f => [(fst x, f)] | MProperty => [] end)
           members.

(** [Validator.validate(self)] *)
Definition Validator_validate (self : Validator) (obj : pydict) (schema : class)
  : Validator :=
  fold_left (fun self nf => Validator___validate self (snd nf) (fst nf) obj)
            (checked_fields (getmembers schema)) self.

(** [Validator(obj, schema)] *)
Definition Validator_init (obj : pydict) (schema : class) : Validator :=
  Validator_validate (mkValidator [] []) obj schema.

Definition get_errors (self : Validator) : list string := errors self.

(** [is_valid]: [not self.errors] *)
Definition is_valid (self : Validator) : bool :=
  match errors self with
  | [] => true
  | _ => false
  end.

(** ** Constants *)

Definition MEANING_OF_LIFE : Z := 42.
Definition SALT := "Otus".
Definition ADMIN_LOGIN := "admin".
Definition ADMIN_SALT := "42".
Definition OK : Z := 200.
Definition BAD_REQUEST : Z := 400.
Definition FORBIDDEN : Z := 403.
Definition NOT_FOUND : Z := 404.
Definition INVALID_REQUEST : Z := 422.
Definition INTERNAL_ERROR : Z := 500.

Definition ERRORS : list (Z * string) :=
  [ (BAD_REQUEST, "Bad Request");
    (FORBIDDEN, "Forbidden");
    (NOT_FOUND, "Not Found");
    (INVALID_REQUEST, "Invalid Request");
    (INTERNAL_ERROR, "Internal Server Error") ].

Fixpoint ERRORS_get (table : list (Z * string)) (code : Z) (default : string)
  : string :=
  match table with
  | [] => default
  | (c, msg) :: tl => if (c =? code)%Z then msg else ERRORS_get tl code default
  end.

Definition in_ERRORS (code : Z) : bool :=
  existsb (fun e => (fst e =? code)%Z) ERRORS.

(** ** Code that raises and calls the scoring module *)

(** A call made to [HW3.scoring], with its actual arguments. *)
Inductive call :=
| GetScore (store phone email birthday gender first_name last_name : pyval)
| GetInterests (store cid : pyval).

(** A computation returns or raises, and extends the log of calls. *)
Definition M (A : Type) : Type := list call -> (A + exn) * list call.

Definition ret {A : Type} (a : A) : M A := fun log => (inl a, log).

Definition raise {A : Type} (e : exn) : M A := fun log => (inr e, log).

Definition bind {A B : Type} (m : M A) (f : A -> M B) : M B :=
  fun log =>
    match m log with
    | (inl a, log') => f a log'
    | (inr e, log') => (inr e, log')
    end.

Definition lift {A : Type} (r : A + exn) : M A := fun log => (r, log).

Definition tell (c : call) : M unit := fun log => (inl tt, (log ++ [c])%list).

Notation "x <- m ;; k" := (bind m (fun x => k))
  (at level 61, m at next level, right associativity).
Notation "m ;;; k" := (bind m (fun _ => k))
  (at level 61, right associativity).

(** [HW3.scoring]: the two functions the handlers import.  The module is an
    external collaborator; the handlers are stated for any implementation. *)
Record Scoring := mkScoring {
  get_score : pyval -> pyval -> pyval -> pyval -> pyval -> pyval -> pyval -> pyval;
  get_interests : pyval -> pyval -> pyval
}.

(** [Validator(obj, schema)] for an arbitrary object: the first [obj.get]
    raises [AttributeError] unless [obj] is a dict. *)
Definition Validator_new (obj : pyval) (schema : class) : Validator + exn :=
  match obj with
  | PyDict d => inl (Validator_init d schema)
  | _ =>
      match checked_fields (getmembers schema) with
      | [] => inl (mkValidator [] [])
      | _ :: _ => inr AttributeError
      end
  end.

(** [errors[0]] *)
Definition first_error (errs : list string) : string + exn :=
  match errs with
  | e :: _ => inl e
  | [] => inr IndexError
  end.

Definition str_list (l : list string) : pyval := PyList (map PyStr l).

Section Handlers.

Variable scoring : Scoring.

Definition call_get_score (store phone email birthday gender first_name
    last_name : pyval) : M pyval :=
  tell (GetScore store phone email birthday gender first_name last_name) ;;;
  ret (get_score scoring store phone email birthday gender first_name last_name).

Definition call_get_interests (store cid : pyval) : M pyval :=
  tell (GetInterests store cid) ;;;
  ret (get_interests scoring store cid).

(** [{idx: get_interests(store=store, cid=idx) for idx in ids}]: the value
    is computed before the key is hashed. *)
Fixpoint interests_by_id (store : pyval) (ids : list pyval) (acc : pydict)
  : M pydict :=
  match ids with
  | [] => ret acc
  | idx :: tl =>
      v <- call_get_interests store idx ;;
      if hashable idx then interests_by_id store tl (dict_set acc idx v)
      else raise TypeError
  end.

Definition clients_interests (request : pyval) (ctx : pydict) (store : pyval)
  : M (pyval * Z * pydict) :=
  body <- lift (getitem request "body") ;;
  arguments <- lift (getitem body "arguments") ;;
  clients_interests_request_validator <-
    lift (Validator_new arguments ClientsInterestsRequest) ;;
  if is_valid clients_interests_request_validator then
    ids <- lift (getitem arguments "client_ids") ;;
    l <- lift (iter ids) ;;
    response <- interests_by_id store l [] ;;
    n <- lift (len ids) ;;
    ret (PyDict response, OK, dict_set ctx (PyStr "nclients") (PyInt n))
  else
    e <- lift (first_error (errors clients_interests_request_validator)) ;;
    ret (PyDict [(PyStr "error", PyStr e)], INVALID_REQUEST, ctx).

Definition enough_information (email phone first_name last_name gender
    birthday : pyval) : bool :=
  truthy (py_and email phone) || truthy (py_and first_name last_name)
  || truthy (py_and gender birthday).

Definition score_handler (request : pyval) (ctx : pydict) (store : pyval)
  : M (pyval * Z * pydict) :=
  request_body <- lift (getitem request "body") ;;
  arguments <- lift (getitem request_body "arguments") ;;
  email <- lift (get arguments "email") ;;
  phone <- lift (get arguments "phone") ;;
  first_name <- lift (get arguments "first_name") ;;
  last_name <- lift (get arguments "last_name") ;;
  gender <- lift (get arguments "gender") ;;
  birthday <- lift (get arguments "birthday") ;;
  if enough_information email phone first_name last_name gender birthday then
    online_score_validator <- lift (Validator_new request OnlineScoreRequest) ;;
    let ctx := dict_set ctx (PyStr "has")
                 (str_list (filled_fields online_score_validator)) in
    if is_valid online_score_validator then
      login <- lift (getitem request_body "login") ;;
      if eq_str login ADMIN_LOGIN then
        ret (PyDict [(PyStr "score", PyInt MEANING_OF_LIFE)], OK, ctx)
      else
        score <- call_get_score store phone email birthday gender
                   first_name last_name ;;
        ret (PyDict [(PyStr "score", score)], OK, ctx)
    else
      e <- lift (first_error (errors online_score_validator)) ;;
      ret (PyDict [(PyStr "error", PyStr e)], INVALID_REQUEST, ctx)
  else
    ret (PyDict [(PyStr "error",
                  PyStr "You should to send necessary parameters")],
         INVALID_REQUEST, ctx).

(** [middleware[method]] and the call of the handler found. *)
Definition method_handler (request : pyval) (ctx : pydict) (store : pyval)
  : M (pyval * Z * pydict) :=
  body <- lift (getitem request "body") ;;
  method <- lift (getitem body "method") ;;
  if negb (hashable method) then raise TypeError
  else if key_eqb (PyStr "clients_interests") method then
    clients_interests request ctx store
  else if key_eqb (PyStr "online_score") method then
    score_handler request ctx store
  else raise KeyError.

End Handlers.

(** ** [check_auth] *)

(** The attributes [check_auth] reads from its argument. *)
Record AuthRequest := mkAuthRequest {
  account : pyval;
  login : pyval;
  token : pyval
}.

Section Auth.

(** SHA-512 of a byte string, as lower-case hexadecimal text. *)
Variable sha512_hex : list byte -> string.

(** [hashlib.sha512(data).hexdigest()]: the constructor takes bytes only;
    given a [str] it raises [TypeError]. *)
Definition hashlib_sha512_hexdigest (data : pyval) : pyval + exn :=
  match data with
  | PyBytes b => inl (PyStr (sha512_hex b))
  | _ => inr TypeError
  end.

Definition bind_exn {A B : Type} (r : A + exn) (f : A -> B + exn) : B + exn :=
  match r with
  | inl a => f a
  | inr e => inr e
  end.

(** [now] is [datetime.datetime.now().strftime("%Y%m%d%H")]. *)
Definition check_auth (now : string) (request : AuthRequest) : bool + exn :=
  bind_exn
    (if eq_str (login request) ADMIN_LOGIN then
       bind_exn (add (PyStr now) (PyStr ADMIN_SALT)) hashlib_sha512_hexdigest
     else
       bind_exn (add (account request) (login request)) (fun s =>
       bind_exn (add s (PyStr SALT)) hashlib_sha512_hexdigest))
    (fun digest =>
       match digest with
       | PyStr d => if eq_str (token request) d then inl true else inl false
       | _ => inl false
       end).

End Auth.

(** ** [MainHTTPHandler.do_POST] *)

Fixpoint lstrip (c : ascii) (s : string) : string :=
  match s with
  | EmptyString => EmptyString
  | String a tl => if Ascii.eqb a c then lstrip c tl else s
  end.

Fixpoint rstrip (c : ascii) (s : string) : string :=
  match s with
  | EmptyString => EmptyString
  | String a tl =>
      match rstrip c tl with
      | EmptyString => if Ascii.eqb a c then EmptyString else String a EmptyString
      | tl' => String a tl'
      end
  end.

(** [s.strip(c)] for a one-character [c] *)
Definition strip (s : string) (c : ascii) : string := rstrip c (lstrip c s).

Section Server.

Variable scoring : Scoring.

(** The class attribute [MainHTTPHandler.store]. *)
Variable store : pyval.

(** The [try] block: [parsed] is what [json.loads] returned for the body
    read, or [None] when reading or parsing raised.  The result is
    [(response, code, request)] as the block leaves them. *)
Definition read_request (parsed : option pyval) : pyval * Z * pyval :=
  match parsed with
  | None => (PyDict [], BAD_REQUEST, PyNone)
  | Some request =>
      match Validator_new request MethodRequest with
      | inr _ => (PyDict [], BAD_REQUEST, request)
      | inl request_validator =>
          if negb (is_valid request_validator) then
            (str_list (errors request_validator), INVALID_REQUEST, PyNone)
          else (PyDict [], OK, request)
      end
  end.

(** The reply written to the client: [r]. *)
Definition reply (response : pyval) (code : Z) : pyval :=
  if negb (in_ERRORS code) then
    PyDict [(PyStr "response", response); (PyStr "code", PyInt code)]
  else
    PyDict [(PyStr "error",
             if truthy response then response
             else PyStr (ERRORS_get ERRORS code "Unknown Error"));
            (PyStr "code", PyInt code)].

(** [do_POST]: the status sent, the body written and the calls made to the
    scoring module. *)
Definition do_POST (path : string) (headers : pyval) (request_id : string)
    (parsed : option pyval) : Z * pyval * list call :=
  let context := [(PyStr "request_id", PyStr request_id)] in
  let '(response, code, request) := read_request parsed in
  let '(response, code, log) :=
    if truthy request then
      if strip path "/" =? "method" then
        match method_handler scoring
                (PyDict [(PyStr "body", request); (PyStr "headers", headers)])
                context store [] with
        | (inl (response', code', _), log) => (response', code', log)
        | (inr _, log) => (response, INTERNAL_ERROR, log)
        end
      else (response, NOT_FOUND, [])
    else (response, code, []) in
  (code, reply response code, log).

End Server.

(** * HW1/log_analyzer.py: [params_unification] *)

(** [value.startswith('./')] *)
Definition startswith (value prefix : string) : bool := String.prefix prefix value.

(** [value[1:]] *)
Definition slice_from_1 (value : string) : string :=
  match value with
  | EmptyString => EmptyString
  | String _ tl => tl
  end.

(** The body of the loop of [params_unification], entered with the item
    [(key, value)] of the view being iterated. *)
Definition unify_param (current_dir : string) (config : pydict)
    (item : pyval * pyval) : pydict :=
  match snd item with
  | PyStr value =>
      if startswith value "./" then
        dict_set config (fst item) (PyStr (current_dir ++ slice_from_1 value))
      else config
  | _ => config
  end.

(** [params_unification(config)], where [current_dir] is what [os.getcwd()]
    returns.  Assigning to a key that is present does not disturb the
    iteration, and an item is read before it is replaced, so the loop runs
    over the items the dict had on entry. *)
Definition params_unification (current_dir : string) (config : pydict) : pydict :=
  fold_left (unify_param current_dir) config config.

(** What the loop does to one value. *)
Definition unified (current_dir : string) (v : pyval) : pyval :=
  match v with
  | PyStr value =>
      if startswith value "./" then PyStr (current_dir ++ slice_from_1 value)
      else v
  | _ => v
  end.

(** The keys of a dict are hashable and pairwise different. *)
Fixpoint distinct_keys (d : pydict) : Prop :=
  match d with
  | [] => True
  | (k, _) :: tl =>
      hashable k = true
      /\ (forall k', In k' (map fst tl) -> key_eqb k' k = false)
      /\ distinct_keys tl
  end.

(** A string that is a relative path in the sense of the loop. *)
Definition is_relative (v : pyval) : bool :=
  match v with
  | PyStr value => startswith value "./"
  | _ => false
  end.

(** ** Vocabulary of the statements *)

(** What one field contributes to a fresh validator. *)
Definition field_errors (name : string) (field : BaseField) (obj : pydict)
  : list string :=
  errors (Validator___validate (mkValidator [] []) field name obj).

Definition field_filled (name : string) (field : BaseField) (obj : pydict)
  : list string :=
  filled_fields (Validator___validate (mkValidator [] []) field name obj).

(** A field declares the constraint [k = b]. *)
Definition declares (field : BaseField) (k : string) (b : bool) : Prop :=
  In (mkField k b) (constrains_of field).

Definition name_le (a b : string * BaseField) : Prop := (fst a <=? fst b) = true.

Definition by_name {A : Type} (a b : string * A) : Prop :=
  (fst a <=? fst b) = true.

(** The error list of a validator that would visit the fields in the order
    of the class body, which is what the specification describes. *)
Definition errors_in_declaration_order (obj : pydict) (schema : class)
  : list string :=
  flat_map (fun nf => field_errors (fst nf) (snd nf) obj) (checked_fields schema).

(** Sample requests. *)
Definition envelope (login_ method : string) (arguments : pyval) : pydict :=
  [ (PyStr "account", PyStr "horns&hoofs");
    (PyStr "login", PyStr login_);
    (PyStr "token", PyStr "55cc9ce545bcd144300fe9ef");
    (PyStr "arguments", arguments);
    (PyStr "method", PyStr method) ].

Definition envelope_with_empty_login : pydict :=
  envelope "" "online_score" (PyDict [(PyStr "phone", PyStr "79175002040")]).

Definition well_formed_envelope : pydict :=
  envelope "h&f" "online_score" (PyDict [(PyStr "phone", PyStr "79175002040")]).

(** The names of the score schema, as [getmembers] orders them. *)
Definition six_fields : list string :=
  ["birthday"; "email"; "first_name"; "gender"; "last_name"; "phone"].

(** The response of the score handler to arguments that say too little. *)
Definition insufficient : pyval :=
  PyDict [(PyStr "error", PyStr "You should to send necessary parameters")].

(** The dict the comprehension of [clients_interests] builds from the ids
    [l], starting from [acc]. *)
Definition interests_dict (scoring : Scoring) (store : pyval) (l : list pyval)
    (acc : pydict) : pydict :=
  fold_left (fun acc idx => dict_set acc idx (get_interests scoring store idx))
            l acc.

(** Requests as the adapter hands them to a handler. *)
Definition wrap (body : pydict) : pyval :=
  PyDict [(PyStr "body", PyDict body); (PyStr "headers", PyNone)].

Definition score_request (login_ : string) (arguments : pydict) : pyval :=
  wrap (envelope login_ "online_score" (PyDict arguments)).

Definition interests_request (arguments : pydict) : pyval :=
  wrap (envelope "h&f" "clients_interests" (PyDict arguments)).

Definition phone_and_email : pydict :=
  [(PyStr "phone", PyStr "79175002040"); (PyStr "email", PyStr "stupnikov@otus.ru")].

(** A scoring module to run the handlers with. *)
Definition sample_scoring : Scoring :=
  mkScoring (fun _ _ _ _ _ _ _ => PyInt 3) (fun _ cid => PyList [cid]).

(** Whether a value is a dict. *)
Definition is_dict (v : pyval) : bool :=
  match v with
  | PyDict _ => true
  | _ => false
  end.

(** [n] slashes. *)
Fixpoint slashes (n : nat) : string :=
  match n with
  | O => ""
  | S n => String "/" (slashes n)
  end.

(** The body written for a status that is in [ERRORS]. *)
Definition error_body (e : pyval) (code : Z) : pyval :=
  PyDict [(PyStr "error", e); (PyStr "code", PyInt code)].

(** A handler that started with the call log [log] returns status 200, or
    status 422 with a truthy response and without having called the scoring
    module; or it raises. *)
Definition handler_result (log : list call)
    (r : (pyval * Z * pydict + exn) * list call) : Prop :=
  match r with
  | (inl (response, code, _), log') =>
      code = OK
      \/ (code = INVALID_REQUEST /\ truthy response = true /\ log' = log)
  | (inr _, _) => True
  end.

(** More sample requests. *)
Definition two_clients : pydict :=
  [(PyStr "client_ids", PyList [PyStr "1"; PyStr "2"])].

Definition two_clients_envelope : pydict :=
  envelope "h&f" "clients_interests" (PyDict two_clients).

Definition sample_config : pydict :=
  [ (PyStr "REPORT_SIZE", PyInt 1000);
    (PyStr "REPORT_DIR", PyStr "./reports");
    (PyStr "LOG_DIR", PyStr "/var/log/nginx") ].

(** * Properties *)

(** ** The validator, field by field *)

Lemma check_constrain_split (name : string) (v : pyval) (self : Validator)
    (c : Field) :
  check_constrain name v self c =
  mkValidator
    (errors self ++ errors (check_constrain name v (mkValidator [] []) c))
    (filled_fields self
       ++ filled_fields (check_constrain name v (mkValidator [] []) c)).
Proof.
  destruct self as [es fs]. unfold check_constrain, append_error, append_filled.
  destruct (field_type c =? "nullable"), (field_type c =? "required"),
    (value c), (truthy v); simpl; now rewrite ?app_nil_r.
Qed.

Lemma fold_check_constrain_split (name : string) (v : pyval) (cs : list Field) :
  forall self,
    fold_left (check_constrain name v) cs self =
    mkValidator
      (errors self
         ++ errors (fold_left (check_constrain name v) cs (mkValidator [] [])))
      (filled_fields self
         ++ filled_fields
              (fold_left (check_constrain name v) cs (mkValidator [] []))).
Proof.
  induction cs as [|c cs IH]; intros self; simpl.
  - destruct self; simpl; now rewrite !app_nil_r.
  - rewrite (IH (check_constrain name v self c)).
    rewrite (IH (check_constrain name v (mkValidator [] []) c)).
    rewrite (check_constrain_split name v self c); simpl.
    now rewrite !app_assoc.
Qed.

Lemma Validator___validate_split (self : Validator) (field : BaseField)
    (name : string) (obj : pydict) :
  Validator___validate self field name obj =
  mkValidator (errors self ++ field_errors name field obj)
              (filled_fields self ++ field_filled name field obj).
Proof.
  unfold field_errors, field_filled, Validator___validate.
  apply fold_check_constrain_split.
Qed.

Lemma fold_validate_split (obj : pydict) (fields : list (string * BaseField)) :
  forall self,
    fold_left (fun self nf => Validator___validate self (snd nf) (fst nf) obj)
              fields self =
    mkValidator
      (errors self
         ++ flat_map (fun nf => field_errors (fst nf) (snd nf) obj) fields)
      (filled_fields self
         ++ flat_map (fun nf => field_filled (fst nf) (snd nf) obj) fields).
Proof.
  induction fields as [|[n f] fields IH]; intros self; simpl.
  - destruct self; simpl; now rewrite !app_nil_r.
  - rewrite IH, Validator___validate_split; simpl. now rewrite !app_assoc.
Qed.

Lemma Validator_init_errors (obj : pydict) (schema : class) :
  errors (Validator_init obj schema) =
  flat_map (fun nf => field_errors (fst nf) (snd nf) obj)
           (checked_fields (getmembers schema)).
Proof.
  unfold Validator_init, Validator_validate. now rewrite fold_validate_split.
Qed.

Lemma Validator_init_filled (obj : pydict) (schema : class) :
  filled_fields (Validator_init obj schema) =
  flat_map (fun nf => field_filled (fst nf) (snd nf) obj)
           (checked_fields (getmembers schema)).
Proof.
  unfold Validator_init, Validator_validate. now rewrite fold_validate_split.
Qed.

(** What the loop of [__validate] appends for one constraint. *)
Lemma field_errors_constrains (name : string) (field : BaseField) (obj : pydict) :
  field_errors name field obj =
  flat_map
    (fun c => errors (check_constrain name (dict_get obj name) (mkValidator [] []) c))
    (constrains_of field).
Proof.
  unfold field_errors, Validator___validate.
  generalize (constrains_of field) as cs. intros cs.
  induction cs as [|c cs IH]; simpl; [reflexivity|].
  rewrite fold_check_constrain_split; simpl. now rewrite IH.
Qed.

Lemma field_filled_constrains (name : string) (field : BaseField) (obj : pydict) :
  field_filled name field obj =
  flat_map
    (fun c =>
       filled_fields (check_constrain name (dict_get obj name) (mkValidator [] []) c))
    (constrains_of field).
Proof.
  unfold field_filled, Validator___validate.
  generalize (constrains_of field) as cs. intros cs.
  induction cs as [|c cs IH]; simpl; [reflexivity|].
  rewrite fold_check_constrain_split; simpl. now rewrite IH.
Qed.

(** ** [getmembers] sorts by name and loses nothing *)

Lemma string_compare_refl (s : string) : (s ?= s) = Eq.
Proof.
  pose proof (String.compare_antisym s s) as H.
  destruct (s ?= s); simpl in H; congruence.
Qed.

Lemma string_leb_refl (s : string) : (s <=? s) = true.
Proof. unfold String.leb. now rewrite string_compare_refl. Qed.

Lemma string_leb_trans :
  forall a b c : string,
    (a <=? b) = true -> (b <=? c) = true -> (a <=? c) = true.
Proof.
  unfold String.leb.
  induction a as [|x a IH]; intros [|y b] [|z c]; simpl; try easy.
  unfold Ascii.compare.
  destruct (N.compare_spec (N_of_ascii x) (N_of_ascii y));
    destruct (N.compare_spec (N_of_ascii y) (N_of_ascii z));
    destruct (N.compare_spec (N_of_ascii x) (N_of_ascii z));
    try easy; try lia.
  apply IH.
Qed.

Lemma string_leb_false (a b : string) : (a <=? b) = false -> (b <=? a) = true.
Proof.
  intros H. destruct (String.leb_total a b) as [H'|H']; congruence.
Qed.

Section Getmembers.

Context {A : Type}.

Lemma insert_member_perm (x : string * A) (l : list (string * A)) :
  Permutation (x :: l) (insert_member x l).
Proof.
  induction l as [|y l IH]; simpl; [reflexivity|].
  destruct (fst x <=? fst y); [reflexivity|].
  rewrite perm_swap. now constructor.
Qed.

Lemma getmembers_perm (c : list (string * A)) : Permutation c (getmembers c).
Proof.
  induction c as [|x c IH]; simpl; [constructor|].
  rewrite <- insert_member_perm. now constructor.
Qed.

Lemma insert_member_sorted (x : string * A) (l : list (string * A)) :
  StronglySorted by_name l -> StronglySorted by_name (insert_member x l).
Proof.
  induction 1 as [|y l Hl IH Hy]; simpl.
  - repeat constructor.
  - destruct (fst x <=? fst y) eqn:E.
    + constructor; [now constructor|]. constructor; [exact E|].
      eapply Forall_impl; [|exact Hy]. intros z Hz.
      unfold by_name in *. eapply string_leb_trans; eauto.
    + constructor; [exact IH|].
      rewrite <- insert_member_perm. constructor; [|exact Hy].
      now apply string_leb_false.
Qed.

Lemma getmembers_sorted (c : list (string * A)) :
  StronglySorted by_name (getmembers c).
Proof.
  induction c as [|x c IH]; simpl; [constructor|].
  now apply insert_member_sorted.
Qed.

End Getmembers.

Lemma checked_fields_in (members : list (string * member)) (n : string)
    (f : BaseField) :
  In (n, f) (checked_fields members) <-> In (n, MField f) members.
Proof.
  unfold checked_fields. rewrite in_flat_map. split.
  - intros [[n' m] [Hin Hx]]. destruct m as [g|]; simpl in Hx; [|tauto].
    destruct Hx as [Hx|[]]. now inversion Hx; subst.
  - intros Hin. exists (n, MField f). simpl. auto.
Qed.

Lemma checked_fields_sorted (members : list (string * member)) :
  StronglySorted by_name members -> StronglySorted name_le (checked_fields members).
Proof.
  induction 1 as [|[n m] l Hl IH Hn]; simpl; [constructor|].
  destruct m as [f|]; simpl; [|exact IH].
  constructor; [exact IH|].
  apply Forall_forall. intros [n' f'] Hin.
  apply checked_fields_in in Hin.
  rewrite Forall_forall in Hn. exact (Hn _ Hin).
Qed.

(** The first error of a list of fields sorted by name belongs to the first
    of them, in that order, that has an error at all. *)
Lemma first_error_of_sorted (obj : pydict) (fields : list (string * BaseField)) :
  StronglySorted name_le fields ->
  forall e rest,
    flat_map (fun nf => field_errors (fst nf) (snd nf) obj) fields = e :: rest ->
    exists n f,
      In (n, f) fields /\
      hd_error (field_errors n f obj) = Some e /\
      forall n' f',
        In (n', f') fields -> field_errors n' f' obj <> [] -> (n <=? n') = true.
Proof.
  induction 1 as [|[n f] l Hl IH Hn]; simpl; intros e rest Heq; [discriminate|].
  destruct (field_errors n f obj) as [|e' r] eqn:E.
  - destruct (IH e rest Heq) as (n0 & f0 & Hin & Hhd & Hmin).
    exists n0, f0. repeat split; auto.
    intros n' f' [Hx|Hin'] Hne; [|now eauto].
    inversion Hx; subst. congruence.
  - simpl in Heq. inversion Heq; subst.
    exists n, f. repeat split; auto.
    + now rewrite E.
    + intros n' f' [Hx|Hin'] _.
      * inversion Hx; subst. apply string_leb_refl.
      * rewrite Forall_forall in Hn. exact (Hn _ Hin').
Qed.

(** ** C4: the order of the errors *)

(** C4 (refuted as stated): on the envelope schema and the empty mapping the
    first error reported is that of [arguments], although [login] is the
    earliest declared field that fails; the error list differs from the one
    a visit in declaration order gives. *)
Lemma validate_not_in_declaration_order :
  hd_error (errors (Validator_init [] MethodRequest))
    = Some "Field arguments should be exists"
  /\ hd_error (errors_in_declaration_order [] MethodRequest)
    = Some "Field login should be exists"
  /\ errors (Validator_init [] MethodRequest)
    <> errors_in_declaration_order [] MethodRequest.
Proof.
  repeat split; try reflexivity. vm_compute. discriminate.
Qed.

(** C4 (amended): the validator visits the fields in ascending order of
    their names, which is the order [inspect.getmembers] returns: the error
    list is the concatenation of the fields' errors in that order, the
    fields visited are exactly the declared ones, and the first error is the
    first error of the failing field whose name is least. *)
Theorem errors_follow_name_order (obj : pydict) (schema : class) :
  let fields := checked_fields (getmembers schema) in
  errors (Validator_init obj schema)
    = flat_map (fun nf => field_errors (fst nf) (snd nf) obj) fields
  /\ StronglySorted name_le fields
  /\ Permutation (checked_fields schema) fields
  /\ forall e rest,
       errors (Validator_init obj schema) = e :: rest ->
       exists n f,
         In (n, MField f) schema /\
         hd_error (field_errors n f obj) = Some e /\
         forall n' f',
           In (n', MField f') schema -> field_errors n' f' obj <> [] ->
           (n <=? n') = true.
Proof.
  intros fields. split; [apply Validator_init_errors|].
  assert (Hs : StronglySorted name_le fields)
    by apply checked_fields_sorted, getmembers_sorted.
  split; [exact Hs|]. split.
  - unfold fields, checked_fields. apply Permutation_flat_map, getmembers_perm.
  - intros e rest He. rewrite Validator_init_errors in He.
    destruct (first_error_of_sorted obj fields Hs e rest He)
      as (n & f & Hin & Hhd & Hmin).
    assert (Hmem : forall n f, In (n, f) fields <-> In (n, MField f) schema).
    { intros n0 f0. unfold fields. rewrite checked_fields_in. split; intros H.
      - eapply Permutation_in; [symmetry; apply getmembers_perm|exact H].
      - eapply Permutation_in; [apply getmembers_perm|exact H]. }
    exists n, f. repeat split; auto.
    + now apply Hmem.
    + intros n' f' Hin' Hne. apply (Hmin n' f'); auto. now apply Hmem.
Qed.

(** ** What the validator does for one declared constraint *)

Lemma declared_error_reported (obj : pydict) (schema : class) (n : string)
    (f : BaseField) (c : Field) (msg : string) :
  In (n, MField f) schema ->
  In c (constrains_of f) ->
  In msg (errors (check_constrain n (dict_get obj n) (mkValidator [] []) c)) ->
  In msg (errors (Validator_init obj schema))
  /\ is_valid (Validator_init obj schema) = false.
Proof.
  intros Hf Hc Hmsg.
  assert (H : In msg (errors (Validator_init obj schema))).
  { rewrite Validator_init_errors. apply in_flat_map. exists (n, f). split.
    - apply checked_fields_in.
      eapply Permutation_in; [apply getmembers_perm|exact Hf].
    - simpl. rewrite field_errors_constrains. apply in_flat_map. eauto. }
  split; [exact H|]. unfold is_valid.
  destruct (errors (Validator_init obj schema)); [destruct H|reflexivity].
Qed.

(** A required field whose value is missing or falsy is reported as
    missing. *)
Lemma required_falsy_reported (obj : pydict) (schema : class) (n : string)
    (f : BaseField) :
  In (n, MField f) schema ->
  declares f "required" true ->
  truthy (dict_get obj n) = false ->
  In ("Field " ++ n ++ " should be exists") (errors (Validator_init obj schema))
  /\ is_valid (Validator_init obj schema) = false.
Proof.
  intros Hf Hc Hv. eapply declared_error_reported; eauto.
  unfold check_constrain; simpl. rewrite Hv. simpl. auto.
Qed.

(** In particular a required field that is not a key of the data at all. *)
Lemma required_absent_reported (obj : pydict) (schema : class) (n : string)
    (f : BaseField) :
  In (n, MField f) schema ->
  declares f "required" true ->
  dict_contains obj n = false ->
  In ("Field " ++ n ++ " should be exists") (errors (Validator_init obj schema))
  /\ is_valid (Validator_init obj schema) = false.
Proof.
  intros Hf Hc Hv. apply (required_falsy_reported obj schema n f Hf Hc).
  unfold dict_contains in Hv. unfold dict_get.
  destruct (dict_lookup obj (PyStr n)); [discriminate|reflexivity].
Qed.

(** A field that may not be empty and whose value is missing or falsy is
    reported as not filled. *)
Lemma nullable_false_falsy_reported (obj : pydict) (schema : class) (n : string)
    (f : BaseField) :
  In (n, MField f) schema ->
  declares f "nullable" false ->
  truthy (dict_get obj n) = false ->
  In ("Field " ++ n ++ " should be filled") (errors (Validator_init obj schema))
  /\ is_valid (Validator_init obj schema) = false.
Proof.
  intros Hf Hc Hv. eapply declared_error_reported; eauto.
  unfold check_constrain; simpl. rewrite Hv. simpl. auto.
Qed.

(** A field is recorded as filled once for each [nullable = True] it
    declares, whatever the data holds. *)
Lemma field_filled_nullable (obj : pydict) (n : string) (f : BaseField) :
  field_filled n f obj =
  flat_map (fun c => if (field_type c =? "nullable") && value c then [n] else [])
           (constrains_of f).
Proof.
  rewrite field_filled_constrains.
  induction (constrains_of f) as [|c cs IH]; simpl; [reflexivity|].
  rewrite IH. f_equal. unfold check_constrain.
  destruct (field_type c =? "nullable"), (field_type c =? "required"),
    (value c), (truthy (dict_get obj n)); reflexivity.
Qed.

Lemma nullable_true_always_filled (obj : pydict) (schema : class) (n : string)
    (f : BaseField) :
  In (n, MField f) schema ->
  declares f "nullable" true ->
  In n (filled_fields (Validator_init obj schema)).
Proof.
  intros Hf Hc. rewrite Validator_init_filled. apply in_flat_map.
  exists (n, f). split.
  - apply checked_fields_in.
    eapply Permutation_in; [apply getmembers_perm|exact Hf].
  - simpl. rewrite field_filled_nullable. apply in_flat_map.
    exists (mkField "nullable" true). split; [exact Hc|]. simpl. auto.
Qed.

(** ** C1: required fields *)

(** C1 (the code departs from it): the envelope below binds [login] to the
    empty string, so [login] is a key of the data; the validator still
    reports it as missing, and the request is rejected. *)
Theorem required_present_but_falsy_is_reported_missing :
  dict_contains envelope_with_empty_login "login" = true
  /\ errors (Validator_init envelope_with_empty_login MethodRequest)
     = ["Field login should be exists"]
  /\ is_valid (Validator_init envelope_with_empty_login MethodRequest) = false.
Proof. repeat split. Qed.

(** ** C2: fields that may be empty *)

(** C2 (the code departs from it): validated against the empty mapping, all
    six fields of the score schema, none of which is present, are recorded
    as filled. *)
Theorem nullable_absent_is_recorded_filled :
  (forall n, In n ["first_name"; "last_name"; "email"; "phone"; "birthday"; "gender"] ->
             dict_contains [] n = false)
  /\ filled_fields (Validator_init [] OnlineScoreRequest)
     = ["birthday"; "email"; "first_name"; "gender"; "last_name"; "phone"].
Proof. split; [intros n _|]; reflexivity. Qed.

(** ** C3: fields that may not be empty *)

(** C3 (the code departs from it): in a well-formed envelope [method] is
    present and truthy and declares [nullable=False], yet it is not recorded
    as filled. *)
Theorem non_nullable_truthy_is_not_recorded_filled :
  truthy (dict_get well_formed_envelope "method") = true
  /\ errors (Validator_init well_formed_envelope MethodRequest) = []
  /\ filled_fields (Validator_init well_formed_envelope MethodRequest)
     = ["account"; "arguments"; "login"; "token"]
  /\ ~ In "method" (filled_fields (Validator_init well_formed_envelope MethodRequest)).
Proof.
  repeat split. vm_compute. intuition discriminate.
Qed.

(** ** C5: authentication *)

Lemma add_then_sha512_raises (sha512_hex : list byte -> string) (a b : pyval) :
  bind_exn (add a b) (fun s =>
    bind_exn (add s (PyStr SALT)) (hashlib_sha512_hexdigest sha512_hex))
  = inr TypeError.
Proof.
  destruct a as [| x | n | s | bs | l | d], b as [| y | m | t | bt | l' | d'];
    try reflexivity; simpl; try destruct x; try destruct y; reflexivity.
Qed.

(** C5 (the code departs from it): [check_auth] never returns a verdict.
    Whatever the login, the account, the token and the clock, the text to be
    hashed is a [str] (or the concatenation itself fails), and
    [hashlib.sha512] raises [TypeError] on it; the comparison with the token
    is never reached. *)
Theorem check_auth_always_raises (sha512_hex : list byte -> string)
    (now : string) (request : AuthRequest) :
  check_auth sha512_hex now request = inr TypeError.
Proof.
  unfold check_auth. destruct (eq_str (login request) ADMIN_LOGIN).
  - reflexivity.
  - now rewrite add_then_sha512_raises.
Qed.

(** ** The score handler *)

Lemma online_score_validator (d : pydict) :
  Validator_init d OnlineScoreRequest = mkValidator [] six_fields.
Proof. reflexivity. Qed.

Lemma getitem_dict (o : pyval) (name : string) (v : pyval) :
  getitem o name = inl v ->
  exists d, o = PyDict d /\ dict_lookup d (PyStr name) = Some v.
Proof.
  destruct o; try discriminate. simpl.
  destruct (dict_lookup d (PyStr name)) eqn:E; [|discriminate].
  intros H. inversion H; subst. eauto.
Qed.

Section ScoreHandler.

Variable scoring : Scoring.
Variables (ctx : pydict) (store : pyval) (log : list call).

(** C6: when the raw arguments fail the enough-information test, the
    handler answers with the error about the parameters to send and status
    422; the context is returned as it came (no validator ran, nothing was
    recorded under [has]) and no call to the scoring module is made.
    Empty arguments are such a case. *)
Theorem score_handler_insufficient (request body : pyval) :
  getitem request "body" = inl body ->
  (forall d,
      getitem body "arguments" = inl (PyDict d) ->
      enough_information (dict_get d "email") (dict_get d "phone")
        (dict_get d "first_name") (dict_get d "last_name")
        (dict_get d "gender") (dict_get d "birthday") = false ->
      score_handler scoring request ctx store log
      = (inl (insufficient, INVALID_REQUEST, ctx), log))
  /\ (getitem body "arguments" = inl (PyDict []) ->
      score_handler scoring request ctx store log
      = (inl (insufficient, 422%Z, ctx), log)).
Proof.
  intros Hb.
  assert (H : forall d,
    getitem body "arguments" = inl (PyDict d) ->
    enough_information (dict_get d "email") (dict_get d "phone")
      (dict_get d "first_name") (dict_get d "last_name")
      (dict_get d "gender") (dict_get d "birthday") = false ->
    score_handler scoring request ctx store log
    = (inl (insufficient, INVALID_REQUEST, ctx), log)).
  { intros d Ha He. unfold score_handler, bind, lift.
    rewrite Hb, Ha. cbn [get]. now rewrite He. }
  split; [exact H|]. intros Ha. now apply (H [] Ha).
Qed.

Lemma score_handler_enough (request body login_ : pyval) (d : pydict) :
  getitem request "body" = inl body ->
  getitem body "arguments" = inl (PyDict d) ->
  getitem body "login" = inl login_ ->
  enough_information (dict_get d "email") (dict_get d "phone")
    (dict_get d "first_name") (dict_get d "last_name")
    (dict_get d "gender") (dict_get d "birthday") = true ->
  score_handler scoring request ctx store log
  = if eq_str login_ ADMIN_LOGIN then
      (inl (PyDict [(PyStr "score", PyInt MEANING_OF_LIFE)], OK,
            dict_set ctx (PyStr "has") (str_list six_fields)), log)
    else
      (inl (PyDict [(PyStr "score",
                     get_score scoring store (dict_get d "phone")
                       (dict_get d "email") (dict_get d "birthday")
                       (dict_get d "gender") (dict_get d "first_name")
                       (dict_get d "last_name"))], OK,
            dict_set ctx (PyStr "has") (str_list six_fields)),
       (log ++ [GetScore store (dict_get d "phone") (dict_get d "email")
                  (dict_get d "birthday") (dict_get d "gender")
                  (dict_get d "first_name") (dict_get d "last_name")])%list).
Proof.
  intros Hb Ha Hl He.
  destruct (getitem_dict _ _ _ Hb) as (r & -> & _).
  unfold score_handler, bind, lift. rewrite Hb, Ha. cbn [get]. rewrite He.
  cbn [Validator_new]. rewrite online_score_validator.
  cbn [is_valid errors filled_fields]. rewrite Hl.
  now destruct (eq_str login_ ADMIN_LOGIN).
Qed.

(** C7: when the raw arguments pass the enough-information test (schema
    validation then always passes), an [admin] login gets the score 42
    with no call to the scoring module, and any other login gets what
    [get_score] returns for (phone, email, birthday, gender, first_name,
    last_name), after exactly that one call; the status is 200 in both
    cases. *)
Theorem score_handler_scores (request body login_ : pyval) (d : pydict) :
  getitem request "body" = inl body ->
  getitem body "arguments" = inl (PyDict d) ->
  getitem body "login" = inl login_ ->
  let email := dict_get d "email" in
  let phone := dict_get d "phone" in
  let first_name := dict_get d "first_name" in
  let last_name := dict_get d "last_name" in
  let gender := dict_get d "gender" in
  let birthday := dict_get d "birthday" in
  enough_information email phone first_name last_name gender birthday = true ->
  let ctx' := dict_set ctx (PyStr "has") (str_list six_fields) in
  (eq_str login_ "admin" = true ->
   score_handler scoring request ctx store log
   = (inl (PyDict [(PyStr "score", PyInt 42)], OK, ctx'), log))
  /\ (eq_str login_ "admin" = false ->
      score_handler scoring request ctx store log
      = (inl (PyDict [(PyStr "score",
                       get_score scoring store phone email birthday gender
                         first_name last_name)], OK, ctx'),
         (log ++ [GetScore store phone email birthday gender first_name
                    last_name])%list)).
Proof.
  intros Hb Ha Hl email phone first_name last_name gender birthday He ctx'.
  split; intros Hadm;
    rewrite (score_handler_enough request body login_ d Hb Ha Hl He);
    unfold ADMIN_LOGIN; now rewrite Hadm.
Qed.

(** C10: validating against the score schema cannot fail.  For every
    mapping the validator has no error, is valid, and records all six
    field names as filled.  Hence the handler, on any request, either
    raises before any call is made, or refuses for want of parameters
    leaving the context alone, or answers 200 with a score and all six
    names under [has]: the answer built from the first validation error
    never occurs. *)
Theorem online_score_schema_never_fails :
  (forall d : pydict,
      errors (Validator_init d OnlineScoreRequest) = []
      /\ is_valid (Validator_init d OnlineScoreRequest) = true
      /\ filled_fields (Validator_init d OnlineScoreRequest) = six_fields)
  /\ (forall request : pyval,
        match score_handler scoring request ctx store log with
        | (inl (response, code, ctx'), log') =>
            (code = INVALID_REQUEST /\ response = insufficient
             /\ ctx' = ctx /\ log' = log)
            \/ (code = OK
                /\ (exists score, response = PyDict [(PyStr "score", score)])
                /\ ctx' = dict_set ctx (PyStr "has") (str_list six_fields))
        | (inr _, log') => log' = log
        end).
Proof.
  split; [intros d; now rewrite online_score_validator|].
  intros request. unfold score_handler, bind, lift.
  destruct (getitem request "body") as [body|e] eqn:Hb; [|reflexivity].
  destruct (getitem_dict _ _ _ Hb) as (r & -> & _).
  destruct (getitem body "arguments") as [arguments|e]; [|reflexivity].
  destruct arguments as [| | | | | |d]; try reflexivity. cbn [get].
  destruct (enough_information _ _ _ _ _ _).
  - cbn [Validator_new]. rewrite online_score_validator.
    cbn [is_valid errors filled_fields].
    destruct (getitem body "login") as [login_|e]; [|reflexivity].
    destruct (eq_str login_ ADMIN_LOGIN).
    + right. repeat split. eauto.
    + right. repeat split. eauto.
  - left. repeat split.
Qed.

End ScoreHandler.

(** ** Dictionaries *)

Lemma key_eqb_sym (a b : pyval) : key_eqb a b = key_eqb b a.
Proof.
  destruct a as [| x | n | s | bs | l | d], b as [| y | m | t | bt | l' | d'];
    simpl; try reflexivity.
  - now destruct x, y.
  - apply Z.eqb_sym.
  - apply String.eqb_sym.
  - unfold bytes_eqb.
    destruct (list_eq_dec byte_eq_dec bs bt), (list_eq_dec byte_eq_dec bt bs);
      congruence.
Qed.

Lemma key_eqb_refl (a : pyval) : hashable a = true -> key_eqb a a = true.
Proof.
  destruct a as [| x | n | s | bs | l | d]; simpl; try discriminate; intros _.
  - reflexivity.
  - now destruct x.
  - apply Z.eqb_refl.
  - apply String.eqb_refl.
  - unfold bytes_eqb. now destruct (list_eq_dec byte_eq_dec bs bs).
Qed.

Lemma key_eqb_trans (a b c : pyval) :
  key_eqb a b = true -> key_eqb b c = true -> key_eqb a c = true.
Proof.
  destruct a as [| x | n | s | bs | l | d], b as [| y | m | t | bt | l' | d'],
    c as [| z | k | u | bu | l'' | d'']; simpl; try discriminate; auto;
    rewrite ?Z.eqb_eq, ?String.eqb_eq; unfold bytes_eqb;
    try (destruct x); try (destruct y); try (destruct z);
    simpl; try discriminate; try congruence; try lia.
  all: repeat match goal with
         | |- context [list_eq_dec ?p ?u ?v] => destruct (list_eq_dec p u v)
         end; congruence.
Qed.

Lemma dict_lookup_set (d : pydict) (k v k' : pyval) :
  dict_lookup (dict_set d k v) k' =
  if key_eqb k k' then Some v else dict_lookup d k'.
Proof.
  induction d as [|[k1 v1] tl IH]; simpl; [reflexivity|].
  destruct (key_eqb k1 k) eqn:E1; simpl.
  - destruct (key_eqb k1 k') eqn:E2.
    + rewrite (key_eqb_trans k k1 k'); auto. now rewrite key_eqb_sym.
    + destruct (key_eqb k k') eqn:E3; [|reflexivity].
      now rewrite (key_eqb_trans k1 k k' E1 E3) in E2.
  - rewrite IH. destruct (key_eqb k1 k') eqn:E2, (key_eqb k k') eqn:E3; auto.
    rewrite key_eqb_sym in E3.
    now rewrite (key_eqb_trans k1 k' k E2 E3) in E1.
Qed.

Lemma dict_set_keys (d : pydict) (k v x : pyval) :
  In x (map fst (dict_set d k v)) -> In x (map fst d) \/ x = k.
Proof.
  induction d as [|[k1 v1] tl IH]; simpl.
  - intros [H|[]]; auto.
  - destruct (key_eqb k1 k); simpl; intros [H|H]; auto.
    destruct (IH H); auto.
Qed.

Lemma find_snoc {A : Type} (p : A -> bool) (l : list A) (a : A) :
  find p (l ++ [a]) =
  match find p l with
  | Some x => Some x
  | None => if p a then Some a else None
  end.
Proof.
  induction l as [|x l IH]; simpl; [reflexivity|].
  now destruct (p x).
Qed.

Lemma iter_len (o : pyval) (l : list pyval) :
  iter o = inl l -> len o = inl (Z.of_nat (List.length l)).
Proof.
  destruct o as [| x | n | s | bs | l0 | d]; simpl; try discriminate;
    intros H; inversion H; subst; clear H.
  - f_equal. f_equal. induction s; simpl; congruence.
  - now rewrite length_map.
  - reflexivity.
  - now rewrite length_map.
Qed.

(** ** The interests handler *)

Lemma clients_interests_validator (d : pydict) :
  Validator_init d ClientsInterestsRequest =
  mkValidator
    (if truthy (dict_get d "client_ids") then []
     else ["Field client_ids should be exists"])
    ["date"].
Proof.
  cbv -[dict_get truthy].
  now destruct (truthy (dict_get d "client_ids")).
Qed.

Section InterestsHandler.

Variable scoring : Scoring.
Variable store : pyval.

Lemma interests_by_id_hashable (l : list pyval) :
  forallb hashable l = true ->
  forall acc log,
    interests_by_id scoring store l acc log =
    (inl (interests_dict scoring store l acc), (log ++ map (GetInterests store) l)%list).
Proof.
  induction l as [|idx l IH]; simpl; intros Hh acc log.
  - unfold ret. now rewrite app_nil_r.
  - apply andb_prop in Hh. destruct Hh as [Hi Hl].
    unfold call_get_interests, tell, ret, bind. cbn beta iota. rewrite Hi.
    rewrite (IH Hl). unfold interests_dict. simpl.
    now rewrite <- app_assoc.
Qed.

Lemma interests_dict_lookup (l : list pyval) :
  forall acc id,
    dict_lookup (interests_dict scoring store l acc) id =
    match find (fun x => key_eqb x id) (rev l) with
    | Some id' => Some (get_interests scoring store id')
    | None => dict_lookup acc id
    end.
Proof.
  unfold interests_dict.
  induction l as [|a l IH]; intros acc id; simpl; [reflexivity|].
  rewrite IH, find_snoc.
  destruct (find (fun x => key_eqb x id) (rev l)); [reflexivity|].
  rewrite dict_lookup_set. now destruct (key_eqb a id).
Qed.

Lemma interests_dict_keys (l : list pyval) :
  forall acc x,
    In x (map fst (interests_dict scoring store l acc)) -> In x (map fst acc) \/ In x l.
Proof.
  unfold interests_dict.
  induction l as [|a l IH]; intros acc x; simpl; [auto|].
  intros H. destruct (IH _ _ H) as [H'|H']; auto.
  destruct (dict_set_keys _ _ _ _ H'); auto.
Qed.

Lemma interests_dict_of_id (l : list pyval) (id : pyval) :
  forallb hashable l = true ->
  In id l ->
  exists id',
    In id' l /\ key_eqb id' id = true
    /\ dict_lookup (interests_dict scoring store l []) id
       = Some (get_interests scoring store id').
Proof.
  intros Hh Hin. rewrite interests_dict_lookup.
  destruct (find (fun x => key_eqb x id) (rev l)) as [id'|] eqn:E.
  - apply find_some in E. destruct E as [E1 E2].
    exists id'. rewrite <- in_rev in E1. auto.
  - exfalso. rewrite in_rev in Hin.
    pose proof (find_none _ _ E id Hin) as Hn. cbn beta in Hn.
    rewrite <- in_rev in Hin. rewrite forallb_forall in Hh.
    rewrite key_eqb_refl in Hn; auto. discriminate.
Qed.

End InterestsHandler.

Lemma dict_get_getitem (d : pydict) (name : string) (v : pyval) :
  dict_get d name = v -> v <> PyNone -> getitem (PyDict d) name = inl v.
Proof.
  unfold dict_get, getitem. destruct (dict_lookup d (PyStr name)).
  - now intros ->.
  - intros <- H. now destruct H.
Qed.

Lemma truthy_not_None (v : pyval) : truthy v = true -> v <> PyNone.
Proof. intros H ->. discriminate. Qed.

Lemma invalid_has_first_error (v : Validator) :
  is_valid v = false -> exists e rest, errors v = e :: rest.
Proof.
  unfold is_valid. destruct (errors v) as [|e rest]; [discriminate|eauto].
Qed.

Section InterestsAnswers.

Variable scoring : Scoring.
Variables (ctx : pydict) (store : pyval) (log : list call).

(** Arguments that fail validation: the first error and status 422. *)
Lemma clients_interests_invalid (request body : pyval) (d : pydict)
    (e : string) (rest : list string) :
  getitem request "body" = inl body ->
  getitem body "arguments" = inl (PyDict d) ->
  errors (Validator_init d ClientsInterestsRequest) = e :: rest ->
  clients_interests scoring request ctx store log
  = (inl (PyDict [(PyStr "error", PyStr e)], INVALID_REQUEST, ctx), log).
Proof.
  intros Hb Ha He. unfold clients_interests, bind, lift.
  rewrite Hb, Ha. cbn [Validator_new]. unfold is_valid. now rewrite He.
Qed.

(** C8 (amended): when the arguments pass validation and [client_ids] can
    be iterated and holds only hashable ids (a JSON array of strings,
    numbers, booleans or nulls, a string, or an object), the handler calls
    [get_interests] once for every id, in order, and for nothing else;
    it returns status 200 and a dict whose keys are ids and that maps
    every id to the interests returned for an id equal to it as a key, so
    to its own interests when no two different ids are equal as keys; and
    it sets [nclients] to the number of ids.  When the arguments fail
    validation it returns the first error with status 422 and makes no
    call. *)
Theorem clients_interests_answers (request body : pyval) (d : pydict) :
  getitem request "body" = inl body ->
  getitem body "arguments" = inl (PyDict d) ->
  (is_valid (Validator_init d ClientsInterestsRequest) = true ->
   forall l,
     iter (dict_get d "client_ids") = inl l ->
     forallb hashable l = true ->
     let response := interests_dict scoring store l [] in
     clients_interests scoring request ctx store log
     = (inl (PyDict response, OK,
             dict_set ctx (PyStr "nclients") (PyInt (Z.of_nat (List.length l)))),
        (log ++ map (GetInterests store) l)%list)
     /\ (forall id, In id l ->
           exists id', In id' l /\ key_eqb id' id = true
             /\ dict_lookup response id = Some (get_interests scoring store id'))
     /\ (forall k, In k (map fst response) -> In k l)
     /\ ((forall a b, In a l -> In b l -> key_eqb a b = true -> a = b) ->
         forall id, In id l ->
           dict_lookup response id = Some (get_interests scoring store id)))
  /\ (is_valid (Validator_init d ClientsInterestsRequest) = false ->
      exists e rest,
        errors (Validator_init d ClientsInterestsRequest) = e :: rest
        /\ clients_interests scoring request ctx store log
           = (inl (PyDict [(PyStr "error", PyStr e)], INVALID_REQUEST, ctx), log)).
Proof.
  intros Hb Ha. split.
  - intros Hv l Hit Hh response.
    assert (Hlook : forall id, In id l ->
              exists id', In id' l /\ key_eqb id' id = true
                /\ dict_lookup response id = Some (get_interests scoring store id'))
      by (intros id Hin; now apply interests_dict_of_id).
    repeat split.
    + rewrite clients_interests_validator in Hv. unfold is_valid in Hv.
      cbn [errors] in Hv.
      destruct (truthy (dict_get d "client_ids")) eqn:Ht; [|discriminate].
      unfold clients_interests, bind, lift. rewrite Hb, Ha.
      cbn [Validator_new]. rewrite clients_interests_validator.
      unfold is_valid. cbn [errors]. rewrite Ht.
      rewrite (dict_get_getitem d "client_ids" _ eq_refl (truthy_not_None _ Ht)).
      rewrite Hit, (interests_by_id_hashable scoring store l Hh).
      now rewrite (iter_len _ _ Hit).
    + exact Hlook.
    + intros k Hk. destruct (interests_dict_keys _ _ _ _ _ Hk) as [[]|H]. exact H.
    + intros Hinj id Hin. destruct (Hlook id Hin) as (id' & Hin' & Hk & ->).
      now rewrite (Hinj id' id Hin' Hin Hk).
  - intros Hv. destruct (invalid_has_first_error _ Hv) as (e & rest & He).
    exists e, rest. split; [exact He|].
    now apply (clients_interests_invalid request body d e rest).
Qed.

End InterestsAnswers.

(** C8 (refuted as stated): arguments whose [client_ids] is the number 5
    pass validation, yet the handler raises [TypeError] (a number cannot be
    iterated) instead of returning status 200. *)
Lemma clients_interests_number_raises :
  let arguments := [(PyStr "client_ids", PyInt 5)] in
  let request :=
    PyDict [(PyStr "body",
             PyDict (envelope "h&f" "clients_interests" (PyDict arguments)));
            (PyStr "headers", PyNone)] in
  is_valid (Validator_init arguments ClientsInterestsRequest) = true
  /\ clients_interests sample_scoring request [] PyNone [] = (inr TypeError, []).
Proof. split; reflexivity. Qed.

(** ** The HTTP adapter *)

Section Adapter.

Variable scoring : Scoring.
Variable store : pyval.

Lemma read_request_invalid (d : pydict) :
  is_valid (Validator_init d MethodRequest) = false ->
  read_request (Some (PyDict d))
  = (str_list (errors (Validator_init d MethodRequest)), INVALID_REQUEST, PyNone).
Proof. intros H. unfold read_request. cbn [Validator_new]. now rewrite H. Qed.

Lemma read_request_valid (d : pydict) :
  is_valid (Validator_init d MethodRequest) = true ->
  read_request (Some (PyDict d)) = (PyDict [], OK, PyDict d).
Proof. intros H. unfold read_request. cbn [Validator_new]. now rewrite H. Qed.

Lemma method_request_validator (d : pydict) :
  is_valid (Validator_init d MethodRequest)
  = truthy (dict_get d "arguments") && truthy (dict_get d "login")
    && truthy (dict_get d "method") && truthy (dict_get d "token").
Proof.
  cbv -[dict_get truthy andb].
  now destruct (truthy (dict_get d "arguments")), (truthy (dict_get d "login")),
    (truthy (dict_get d "method")), (truthy (dict_get d "token")).
Qed.

(** A score request that went through the adapter has a login: with
    enough arguments it is answered 200 with a score, 42 for [admin]
    without any call, and the result of [get_score] for anybody else. *)
Lemma do_POST_online_score (path : string) (headers : pyval)
    (request_id : string) (d a : pydict) :
  is_valid (Validator_init d MethodRequest) = true ->
  strip path "/" = "method" ->
  dict_get d "method" = PyStr "online_score" ->
  dict_get d "arguments" = PyDict a ->
  enough_information (dict_get a "email") (dict_get a "phone")
    (dict_get a "first_name") (dict_get a "last_name")
    (dict_get a "gender") (dict_get a "birthday") = true ->
  do_POST scoring store path headers request_id (Some (PyDict d))
  = if eq_str (dict_get d "login") "admin" then
      (200%Z,
       PyDict [(PyStr "response", PyDict [(PyStr "score", PyInt 42)]);
               (PyStr "code", PyInt 200)],
       [])
    else
      (200%Z,
       PyDict [(PyStr "response",
                PyDict [(PyStr "score",
                         get_score scoring store (dict_get a "phone")
                           (dict_get a "email") (dict_get a "birthday")
                           (dict_get a "gender") (dict_get a "first_name")
                           (dict_get a "last_name"))]);
               (PyStr "code", PyInt 200)],
       [GetScore store (dict_get a "phone") (dict_get a "email")
          (dict_get a "birthday") (dict_get a "gender")
          (dict_get a "first_name") (dict_get a "last_name")]).
Proof.
  intros Hv Hp Hm Ha He.
  assert (Hbody : getitem (PyDict [(PyStr "body", PyDict d);
                                   (PyStr "headers", headers)]) "body"
                  = inl (PyDict d)) by reflexivity.
  assert (Hargs : getitem (PyDict d) "arguments" = inl (PyDict a))
    by (apply dict_get_getitem; [exact Ha|discriminate]).
  assert (Hmeth : getitem (PyDict d) "method" = inl (PyStr "online_score"))
    by (apply dict_get_getitem; [exact Hm|discriminate]).
  assert (Hlogin : getitem (PyDict d) "login" = inl (dict_get d "login")).
  { apply dict_get_getitem; [reflexivity|]. apply truthy_not_None.
    rewrite method_request_validator in Hv.
    now destruct (truthy (dict_get d "arguments")), (truthy (dict_get d "login")). }
  unfold do_POST. rewrite (read_request_valid d Hv).
  assert (Ht : truthy (PyDict d) = true).
  { destruct d; [discriminate Hm|reflexivity]. }
  rewrite Ht, Hp. cbn [String.eqb Ascii.eqb Bool.eqb].
  unfold method_handler, bind, lift. rewrite Hbody, Hmeth.
  cbn [hashable negb key_eqb String.eqb Ascii.eqb Bool.eqb].
  rewrite (score_handler_enough scoring _ store [] _ _ _ a
             Hbody Hargs Hlogin He).
  unfold ADMIN_LOGIN. now destruct (eq_str (dict_get d "login") "admin").
Qed.

(** C9: a schema-validation failure is answered with status 422.  When
    the envelope fails, the adapter's body carries the whole error list,
    in the validator's order; when the arguments of [clients_interests]
    fail, the handler's response carries the first error only, and that
    is what the adapter sends.  (The score handler reads [errors[0]] in
    the same way, but its schema cannot fail.) *)
Theorem validation_failures_are_422 (path : string) (headers : pyval)
    (request_id : string) :
  (forall d,
      is_valid (Validator_init d MethodRequest) = false ->
      do_POST scoring store path headers request_id (Some (PyDict d))
      = (422%Z,
         PyDict [(PyStr "error", str_list (errors (Validator_init d MethodRequest)));
                 (PyStr "code", PyInt 422)],
         []))
  /\ (forall d a,
        is_valid (Validator_init d MethodRequest) = true ->
        strip path "/" = "method" ->
        dict_get d "method" = PyStr "clients_interests" ->
        dict_get d "arguments" = PyDict a ->
        is_valid (Validator_init a ClientsInterestsRequest) = false ->
        exists e rest,
          errors (Validator_init a ClientsInterestsRequest) = e :: rest
          /\ (forall ctx log,
                clients_interests scoring
                  (PyDict [(PyStr "body", PyDict d); (PyStr "headers", headers)])
                  ctx store log
                = (inl (PyDict [(PyStr "error", PyStr e)], 422%Z, ctx), log))
          /\ do_POST scoring store path headers request_id (Some (PyDict d))
             = (422%Z,
                PyDict [(PyStr "error", PyDict [(PyStr "error", PyStr e)]);
                        (PyStr "code", PyInt 422)],
                [])).
Proof.
  split.
  - intros d Hv. unfold do_POST. rewrite (read_request_invalid d Hv).
    destruct (invalid_has_first_error _ Hv) as (e & rest & He).
    rewrite He. reflexivity.
  - intros d a Hv Hp Hm Ha Hav.
    destruct (invalid_has_first_error _ Hav) as (e & rest & He).
    exists e, rest. split; [exact He|].
    assert (Hbody : getitem (PyDict [(PyStr "body", PyDict d);
                                     (PyStr "headers", headers)]) "body"
                    = inl (PyDict d)) by reflexivity.
    assert (Hargs : getitem (PyDict d) "arguments" = inl (PyDict a))
      by (apply dict_get_getitem; [exact Ha|discriminate]).
    assert (Hmeth : getitem (PyDict d) "method" = inl (PyStr "clients_interests"))
      by (apply dict_get_getitem; [exact Hm|discriminate]).
    split.
    + intros ctx log.
      exact (clients_interests_invalid scoring ctx store log _ _ a e rest
               Hbody Hargs He).
    + unfold do_POST. rewrite (read_request_valid d Hv).
      assert (Ht : truthy (PyDict d) = true).
      { destruct d; [discriminate Hm|reflexivity]. }
      rewrite Ht, Hp. cbn [String.eqb Ascii.eqb Bool.eqb].
      unfold method_handler, bind, lift. rewrite Hbody, Hmeth.
      cbn [hashable negb key_eqb String.eqb Ascii.eqb Bool.eqb].
      rewrite (clients_interests_invalid scoring _ store [] _ _ a e rest
                 Hbody Hargs He).
      reflexivity.
Qed.

End Adapter.

(** ** The statements above, on sample requests *)

(** The first error of the empty envelope is that of [arguments], the least
    name among the failing fields. *)
Lemma errors_follow_name_order_witness :
  errors (Validator_init [] MethodRequest)
  = "Field arguments should be exists"
      :: ["Field login should be exists"; "Field method should be exists";
          "Field method should be filled"; "Field token should be exists"]
  /\ exists n f,
       In (n, MField f) MethodRequest /\
       hd_error (field_errors n f []) = Some "Field arguments should be exists" /\
       forall n' f',
         In (n', MField f') MethodRequest -> field_errors n' f' [] <> [] ->
         (n <=? n') = true.
Proof.
  split; [reflexivity|].
  exact (proj2 (proj2 (proj2 (errors_follow_name_order [] MethodRequest)))
           _ _ eq_refl).
Defined.

(** A phone number alone, and no arguments at all. *)
Lemma score_handler_insufficient_witness :
  getitem (score_request "h&f" [(PyStr "phone", PyStr "79175002040")]) "body"
  = inl (PyDict (envelope "h&f" "online_score"
                   (PyDict [(PyStr "phone", PyStr "79175002040")])))
  /\ score_handler sample_scoring
       (score_request "h&f" [(PyStr "phone", PyStr "79175002040")]) [] PyNone []
     = (inl (insufficient, INVALID_REQUEST, []), [])
  /\ score_handler sample_scoring (score_request "h&f" []) [] PyNone []
     = (inl (insufficient, 422%Z, []), []).
Proof.
  split; [reflexivity|]. split.
  - exact (proj1 (score_handler_insufficient sample_scoring [] PyNone []
                    (score_request "h&f" [(PyStr "phone", PyStr "79175002040")])
                    _ eq_refl)
             [(PyStr "phone", PyStr "79175002040")] eq_refl eq_refl).
  - exact (proj2 (score_handler_insufficient sample_scoring [] PyNone []
                    (score_request "h&f" []) _ eq_refl)
             eq_refl).
Defined.

(** Phone and e-mail, sent by [admin] and by somebody else. *)
Lemma score_handler_scores_witness :
  score_handler sample_scoring (score_request "admin" phone_and_email) [] PyNone []
  = (inl (PyDict [(PyStr "score", PyInt 42)], OK,
          [(PyStr "has", str_list six_fields)]), [])
  /\ score_handler sample_scoring (score_request "h&f" phone_and_email) [] PyNone []
     = (inl (PyDict [(PyStr "score", PyInt 3)], OK,
             [(PyStr "has", str_list six_fields)]),
        [GetScore PyNone (PyStr "79175002040") (PyStr "stupnikov@otus.ru")
           PyNone PyNone PyNone PyNone]).
Proof.
  split.
  - exact (proj1 (score_handler_scores sample_scoring [] PyNone []
                    (score_request "admin" phone_and_email) _ (PyStr "admin")
                    phone_and_email eq_refl eq_refl eq_refl eq_refl)
             eq_refl).
  - exact (proj2 (score_handler_scores sample_scoring [] PyNone []
                    (score_request "h&f" phone_and_email) _ (PyStr "h&f")
                    phone_and_email eq_refl eq_refl eq_refl eq_refl)
             eq_refl).
Defined.

(** Two client ids, and no client id. *)
Lemma clients_interests_answers_witness :
  clients_interests sample_scoring
    (interests_request [(PyStr "client_ids", PyList [PyStr "1"; PyStr "2"])])
    [] PyNone []
  = (inl (PyDict [(PyStr "1", PyList [PyStr "1"]); (PyStr "2", PyList [PyStr "2"])],
          OK, [(PyStr "nclients", PyInt 2)]),
     [GetInterests PyNone (PyStr "1"); GetInterests PyNone (PyStr "2")])
  /\ exists e rest,
       errors (Validator_init [(PyStr "date", PyStr "20.07.2017")]
                 ClientsInterestsRequest) = e :: rest
       /\ clients_interests sample_scoring
            (interests_request [(PyStr "date", PyStr "20.07.2017")]) [] PyNone []
          = (inl (PyDict [(PyStr "error", PyStr e)], INVALID_REQUEST, []), []).
Proof.
  split.
  - exact (proj1 (proj1 (clients_interests_answers sample_scoring [] PyNone []
                           (interests_request
                              [(PyStr "client_ids", PyList [PyStr "1"; PyStr "2"])])
                           _ _ eq_refl eq_refl)
                    eq_refl [PyStr "1"; PyStr "2"] eq_refl eq_refl)).
  - exact (proj2 (clients_interests_answers sample_scoring [] PyNone []
                    (interests_request [(PyStr "date", PyStr "20.07.2017")])
                    _ _ eq_refl eq_refl)
             eq_refl).
Defined.

(** An empty envelope, and a well-formed one whose arguments name no
    client. *)
Lemma validation_failures_are_422_witness :
  do_POST sample_scoring PyNone "/method/" PyNone "1" (Some (PyDict []))
  = (422%Z,
     PyDict [(PyStr "error", str_list (errors (Validator_init [] MethodRequest)));
             (PyStr "code", PyInt 422)],
     [])
  /\ exists e rest,
       errors (Validator_init [(PyStr "date", PyStr "20.07.2017")]
                 ClientsInterestsRequest) = e :: rest
       /\ do_POST sample_scoring PyNone "/method/" PyNone "1"
            (Some (PyDict (envelope "h&f" "clients_interests"
                             (PyDict [(PyStr "date", PyStr "20.07.2017")]))))
          = (422%Z,
             PyDict [(PyStr "error", PyDict [(PyStr "error", PyStr e)]);
                     (PyStr "code", PyInt 422)],
             []).
Proof.
  split.
  - exact (proj1 (validation_failures_are_422 sample_scoring PyNone "/method/"
                    PyNone "1") [] eq_refl).
  - destruct (proj2 (validation_failures_are_422 sample_scoring PyNone "/method/"
                       PyNone "1")
                (envelope "h&f" "clients_interests"
                   (PyDict [(PyStr "date", PyStr "20.07.2017")]))
                [(PyStr "date", PyStr "20.07.2017")]
                eq_refl eq_refl eq_refl eq_refl eq_refl)
      as (e & rest & He & _ & Hpost).
    exists e, rest. split; [exact He|exact Hpost].
Defined.

(** * Further properties of the program *)

(** ** The validator: which errors, which names *)

Lemma flat_map_nil {A B : Type} (f : A -> list B) (l : list A) :
  flat_map f l = [] <-> forall x, In x l -> f x = [].
Proof.
  induction l as [|a l IH]; simpl.
  - split; [intros _ x []|reflexivity].
  - split.
    + intros H. apply app_eq_nil in H. destruct H as [Ha Hl].
      intros x [<-|Hx]; [exact Ha|]. now apply IH.
    + intros H. rewrite (H a (or_introl eq_refl)). simpl.
      apply IH. intros x Hx. apply H. now right.
Qed.

(** The errors one constraint contributes. *)
Lemma check_constrain_errors (n : string) (v : pyval) (c : Field) (e : string) :
  In e (errors (check_constrain n v (mkValidator [] []) c)) <->
  truthy v = false
  /\ ((e = "Field " ++ n ++ " should be filled" /\ c = mkField "nullable" false)
      \/ (e = "Field " ++ n ++ " should be exists" /\ c = mkField "required" true)).
Proof.
  destruct c as [k b]. unfold check_constrain. cbn [field_type value].
  destruct (k =? "nullable") eqn:E1; [|destruct (k =? "required") eqn:E2].
  1, 2: (apply String.eqb_eq in E1 || apply String.eqb_eq in E2); subst k;
    destruct b, (truthy v).
  all: unfold append_error, append_filled; cbn [negb errors app In].
  all: split; [intros H|intros [Hv [[He Hc]|[He Hc]]]].
  all: try discriminate; try contradiction.
  all: try (destruct H as [<-|[]]); subst; auto.
  all: inversion Hc; subst; discriminate.
Qed.

Lemma in_schema_fields (schema : class) (n : string) (f : BaseField) :
  In (n, f) (checked_fields (getmembers schema)) <-> In (n, MField f) schema.
Proof.
  rewrite checked_fields_in. split; intros H.
  - eapply Permutation_in; [symmetry; apply getmembers_perm|exact H].
  - eapply Permutation_in; [apply getmembers_perm|exact H].
Qed.

Lemma in_errors_iff (obj : pydict) (schema : class) (e : string) :
  In e (errors (Validator_init obj schema)) <->
  exists n f,
    In (n, MField f) schema
    /\ truthy (dict_get obj n) = false
    /\ ((e = "Field " ++ n ++ " should be filled" /\ declares f "nullable" false)
        \/ (e = "Field " ++ n ++ " should be exists" /\ declares f "required" true)).
Proof.
  rewrite Validator_init_errors, in_flat_map. split.
  - intros [[n f] [Hin He]]. cbn [fst snd] in He.
    rewrite field_errors_constrains, in_flat_map in He.
    destruct He as [c [Hc He]]. apply check_constrain_errors in He.
    destruct He as [Hv Hcase]. exists n, f. split; [now apply in_schema_fields|].
    split; [exact Hv|]. unfold declares.
    destruct Hcase as [[-> ->]|[-> ->]]; auto.
  - intros (n & f & Hin & Hv & Hcase). exists (n, f).
    split; [now apply in_schema_fields|]. cbn [fst snd].
    rewrite field_errors_constrains, in_flat_map. unfold declares in Hcase.
    destruct Hcase as [[-> Hc]|[-> Hc]]; eexists; (split; [exact Hc|]);
      apply check_constrain_errors; auto.
Qed.

(** X1: a mapping is valid exactly when every field that declares
    [nullable=False] or [required=True] has a truthy value in it. *)
Theorem valid_iff_guarded_fields_truthy (obj : pydict) (schema : class) :
  is_valid (Validator_init obj schema) = true <->
  forall n f,
    In (n, MField f) schema ->
    declares f "nullable" false \/ declares f "required" true ->
    truthy (dict_get obj n) = true.
Proof.
  unfold is_valid. split.
  - intros Hv n f Hin Hd.
    destruct (truthy (dict_get obj n)) eqn:Ht; [reflexivity|]. exfalso.
    destruct (errors (Validator_init obj schema)) as [|e es] eqn:He;
      [|discriminate].
    destruct Hd as [Hd|Hd].
    + assert (H : In ("Field " ++ n ++ " should be filled")
                     (errors (Validator_init obj schema)))
        by (apply in_errors_iff; exists n, f; auto).
      rewrite He in H. destruct H.
    + assert (H : In ("Field " ++ n ++ " should be exists")
                     (errors (Validator_init obj schema)))
        by (apply in_errors_iff; exists n, f; auto).
      rewrite He in H. destruct H.
  - intros H. destruct (errors (Validator_init obj schema)) as [|e es] eqn:He;
      [reflexivity|]. exfalso.
    assert (Hin : In e (errors (Validator_init obj schema)))
      by (rewrite He; now left).
    apply in_errors_iff in Hin. destruct Hin as (n & f & Hin & Hv & Hcase).
    rewrite (H n f Hin) in Hv; [discriminate|].
    destruct Hcase as [[_ Hd]|[_ Hd]]; auto.
Qed.

(** X2: every error names a declared field whose value is missing or
    falsy, and says "should be filled" for a [nullable=False] declaration
    or "should be exists" for a [required=True] one; all such errors are
    reported. *)
Theorem errors_are_exactly_the_violations (obj : pydict) (schema : class)
    (e : string) :
  In e (errors (Validator_init obj schema)) <->
  exists n f,
    In (n, MField f) schema
    /\ truthy (dict_get obj n) = false
    /\ ((e = "Field " ++ n ++ " should be filled" /\ declares f "nullable" false)
        \/ (e = "Field " ++ n ++ " should be exists" /\ declares f "required" true)).
Proof. apply in_errors_iff. Qed.

(** X3: the names recorded as filled are exactly the names of the fields
    that declare [nullable=True]; the data plays no part. *)
Theorem filled_fields_are_the_nullable_names (obj : pydict) (schema : class)
    (n : string) :
  In n (filled_fields (Validator_init obj schema)) <->
  exists f, In (n, MField f) schema /\ declares f "nullable" true.
Proof.
  split.
  - rewrite Validator_init_filled, in_flat_map.
    intros [[n' f] [Hin Hn]]. cbn [fst snd] in Hn.
    rewrite field_filled_nullable, in_flat_map in Hn.
    destruct Hn as [[k b] [Hc Hn]]. cbn [field_type value] in Hn.
    destruct (k =? "nullable") eqn:E; [|destruct Hn].
    destruct b; [|destruct Hn]. destruct Hn as [<-|[]].
    apply String.eqb_eq in E. subst k.
    exists f. split; [now apply in_schema_fields|exact Hc].
  - intros [f [Hin Hd]]. now apply (nullable_true_always_filled obj schema n f).
Qed.

(** ** Error messages tell the field and the kind of violation *)

Lemma append_to_list (s t : string) :
  list_ascii_of_string (s ++ t)
  = (list_ascii_of_string s ++ list_ascii_of_string t)%list.
Proof. induction s as [|c s IH]; simpl; [reflexivity|now rewrite IH]. Qed.

Lemma app_same_length_tail {A : Type} (a1 a2 b1 b2 : list A) :
  List.length b1 = List.length b2 ->
  (a1 ++ b1 = a2 ++ b2)%list -> a1 = a2 /\ b1 = b2.
Proof.
  revert a2. induction a1 as [|x a1 IH]; intros [|y a2] Hlen H; simpl in H.
  - auto.
  - exfalso. apply (f_equal (@List.length A)) in H. simpl in H.
    rewrite length_app in H. lia.
  - exfalso. apply (f_equal (@List.length A)) in H. simpl in H.
    rewrite length_app in H. lia.
  - inversion H; subst. destruct (IH a2 Hlen H2) as [-> ->]. auto.
Qed.

Lemma message_injective (n m suffix suffix' : string) :
  String.length suffix = String.length suffix' ->
  "Field " ++ n ++ suffix = "Field " ++ m ++ suffix' ->
  n = m /\ suffix = suffix'.
Proof.
  intros Hlen H. simpl in H.
  repeat match type of H with String _ _ = String _ _ => inversion H as [H']; clear H; rename H' into H end.
  apply (f_equal list_ascii_of_string) in H. rewrite !append_to_list in H.
  apply app_same_length_tail in H.
  - destruct H as [H1 H2].
    apply (f_equal string_of_list_ascii) in H1, H2.
    rewrite !string_of_list_ascii_of_string in H1, H2. auto.
  - revert Hlen. clear. revert suffix'.
    induction suffix as [|c s IH]; intros [|c' s']; simpl; try easy.
    intros H. f_equal. apply IH. now inversion H.
Qed.

(** ** Filling in a field *)

Lemma dict_get_set (d : pydict) (k : string) (v : pyval) (n : string) :
  dict_get (dict_set d (PyStr k) v) n = if (k =? n) then v else dict_get d n.
Proof.
  unfold dict_get. rewrite dict_lookup_set. cbn [key_eqb].
  now destruct (k =? n).
Qed.

(** X4: binding a key to a truthy value never adds an error: every error
    of the new mapping was an error of the old one, no error about that key
    remains, and a valid mapping stays valid. *)
Theorem filling_a_field_adds_no_error (obj : pydict) (schema : class)
    (k : string) (v : pyval) :
  truthy v = true ->
  let obj' := dict_set obj (PyStr k) v in
  incl (errors (Validator_init obj' schema)) (errors (Validator_init obj schema))
  /\ ~ In ("Field " ++ k ++ " should be filled") (errors (Validator_init obj' schema))
  /\ ~ In ("Field " ++ k ++ " should be exists") (errors (Validator_init obj' schema))
  /\ (is_valid (Validator_init obj schema) = true ->
      is_valid (Validator_init obj' schema) = true).
Proof.
  intros Hv obj'.
  assert (Hother : forall n, truthy (dict_get obj' n) = false ->
                     k <> n /\ truthy (dict_get obj n) = false).
  { intros n Hn. unfold obj' in Hn. rewrite dict_get_set in Hn.
    destruct (k =? n) eqn:E; [congruence|].
    apply String.eqb_neq in E. auto. }
  assert (Hincl : incl (errors (Validator_init obj' schema))
                       (errors (Validator_init obj schema))).
  { intros e He. apply in_errors_iff in He.
    destruct He as (n & f & Hin & Hn & Hcase).
    apply in_errors_iff. exists n, f. destruct (Hother n Hn). auto. }
  assert (Hnot : forall suffix,
             suffix = " should be filled" \/ suffix = " should be exists" ->
             ~ In ("Field " ++ k ++ suffix) (errors (Validator_init obj' schema))).
  { intros suffix Hs He. apply in_errors_iff in He.
    destruct He as (n & f & Hin & Hn & Hcase).
    destruct (Hother n Hn) as [Hk _]. apply Hk.
    destruct Hs as [->| ->], Hcase as [[He _]|[He _]];
      apply message_injective in He; try reflexivity; tauto. }
  repeat split; auto.
  unfold is_valid. destruct (errors (Validator_init obj schema)); [|discriminate].
  intros _. destruct (errors (Validator_init obj' schema)) as [|e es];
    [reflexivity|]. destruct (Hincl e (or_introl eq_refl)).
Qed.

(** ** The order of the class body does not matter *)

Lemma fst_inj_of_NoDup {A : Type} (l : list (string * A)) (x y : string * A) :
  NoDup (map fst l) -> In x l -> In y l -> fst x = fst y -> x = y.
Proof.
  induction l as [|a l IH]; simpl; [tauto|].
  intros Hnd [Hx|Hx] [Hy|Hy] Hxy; inversion Hnd as [|? ? Hna Hnd']; subst.
  - reflexivity.
  - exfalso. apply Hna. rewrite Hxy. now apply in_map.
  - exfalso. apply Hna. rewrite <- Hxy. now apply in_map.
  - auto.
Qed.

Lemma sorted_perm_unique {A : Type} (l1 : list (string * A)) :
  forall l2,
    StronglySorted by_name l1 -> StronglySorted by_name l2 ->
    Permutation l1 l2 -> NoDup (map fst l1) -> l1 = l2.
Proof.
  induction l1 as [|x t1 IH]; intros l2 S1 S2 P Hnd.
  - apply Permutation_nil in P. now subst.
  - destruct l2 as [|y t2]; [now apply Permutation_sym, Permutation_nil in P|].
    assert (Hxy : x = y).
    { assert (Hx : In x (y :: t2)) by (eapply Permutation_in; [exact P|now left]).
      assert (Hy : In y (x :: t1))
        by (eapply Permutation_in; [symmetry; exact P|now left]).
      destruct Hx as [Hx|Hx]; [now subst|]. destruct Hy as [Hy|Hy]; [now subst|].
      apply StronglySorted_inv in S1, S2.
      destruct S1 as [_ F1], S2 as [_ F2]. rewrite Forall_forall in F1, F2.
      apply (fst_inj_of_NoDup (x :: t1)); auto; [now left|now right|].
      apply String.leb_antisym; [exact (F1 _ Hy)|exact (F2 _ Hx)]. }
    subst y. f_equal.
    apply StronglySorted_inv in S1, S2. inversion Hnd; subst.
    apply IH; try tauto. now apply Permutation_cons_inv in P.
Qed.

Lemma getmembers_of_permutation {A : Type} (c c' : list (string * A)) :
  Permutation c c' -> NoDup (map fst c) -> getmembers c = getmembers c'.
Proof.
  intros P Hnd. apply sorted_perm_unique; try apply getmembers_sorted.
  - rewrite <- (getmembers_perm c), <- (getmembers_perm c'). exact P.
  - eapply Permutation_NoDup; [|exact Hnd].
    apply Permutation_map, getmembers_perm.
Qed.

(** X5: declaring the same members in another order changes nothing: the
    validator of a class whose names are distinct gives the same errors and
    the same filled fields for every reordering of the class body. *)
Theorem validator_ignores_declaration_order (obj : pydict) (schema schema' : class) :
  Permutation schema schema' ->
  NoDup (map fst schema) ->
  Validator_init obj schema = Validator_init obj schema'.
Proof.
  intros P Hnd. unfold Validator_init, Validator_validate.
  now rewrite (getmembers_of_permutation schema schema' P Hnd).
Qed.

(** ** The constraints a field declaration keeps *)

Lemma setattr_fresh {A : Type} (d : list (string * A)) (k : string) (v : A) :
  ~ In k (map fst d) -> setattr d k v = (d ++ [(k, v)])%list.
Proof.
  induction d as [|[k' v'] d IH]; simpl; intros Hk; [reflexivity|].
  destruct (k' =? k) eqn:E.
  - apply String.eqb_eq in E. tauto.
  - rewrite IH; tauto.
Qed.

Lemma fold_setattr_fresh (kwargs : list (string * bool)) :
  forall acc : list (string * attr),
    NoDup (map fst acc ++ map fst kwargs) ->
    fold_left
      (fun d kv => setattr d (fst kv) (AField (mkField (fst kv) (snd kv))))
      kwargs acc
    = (acc ++ map (fun kv => (fst kv, AField (mkField (fst kv) (snd kv)))) kwargs)%list.
Proof.
  induction kwargs as [|[k b] kwargs IH]; intros acc Hnd; simpl.
  - now rewrite app_nil_r.
  - simpl in Hnd. rewrite setattr_fresh.
    + rewrite IH.
      * now rewrite <- app_assoc.
      * rewrite map_app. simpl. now rewrite <- app_assoc.
    + apply NoDup_remove_2 in Hnd. intros H. apply Hnd, in_or_app. now left.
Qed.

Lemma filter_not_value_id {A : Type} (d : list (string * A)) :
  ~ In "value" (map fst d) ->
  filter (fun kv => negb (fst kv =? "value")) d = d.
Proof.
  induction d as [|[k v] d IH]; simpl; intros H; [reflexivity|].
  destruct (k =? "value") eqn:E; simpl.
  - apply String.eqb_eq in E. tauto.
  - rewrite IH; tauto.
Qed.

Lemma constrains_after_value_reset (d : list (string * attr)) :
  NoDup (map fst d) ->
  constrains_of (mkBaseField (setattr d "value" ANone))
  = constrains_of (mkBaseField (filter (fun kv => negb (fst kv =? "value")) d)).
Proof.
  unfold constrains_of. cbn [__dict__].
  induction d as [|[k v] d IH]; intros Hnd; [reflexivity|].
  inversion Hnd as [|? ? Hk Hnd']; subst. cbn [setattr filter fst].
  destruct (k =? "value") eqn:E; cbn [negb].
  - apply String.eqb_eq in E. subst k.
    now rewrite (filter_not_value_id d Hk).
  - cbn [flat_map]. now rewrite (IH Hnd').
Qed.

(** X6: a field declaration keeps one constraint for each keyword, in the
    order of the keywords; only a keyword named [value] is lost, because
    [__init__] stores [None] under that name afterwards. *)
Theorem BaseField_init_constrains (kwargs : list (string * bool)) :
  NoDup (map fst kwargs) ->
  constrains_of (BaseField_init kwargs)
  = map (fun kv => mkField (fst kv) (snd kv))
        (filter (fun kv => negb (fst kv =? "value")) kwargs).
Proof.
  intros Hnd. unfold BaseField_init.
  rewrite (fold_setattr_fresh kwargs []) by exact Hnd. cbn [app].
  rewrite constrains_after_value_reset
    by (rewrite map_map; cbn [fst]; exact Hnd).
  unfold constrains_of. cbn [__dict__]. clear Hnd.
  induction kwargs as [|[k b] kwargs IH]; [reflexivity|].
  cbn [map filter fst snd]. destruct (k =? "value"); cbn [negb]; [exact IH|].
  cbn [flat_map map snd fst app]. now rewrite IH.
Qed.

(** ** The envelope *)

(** X7: what the envelope schema reports, for every mapping: one error for
    each of [arguments], [login] and [token] that is missing or falsy, in
    that order, with the two errors of [method] ("should be exists", then
    "should be filled") between those of [login] and [token]; [account] is
    never an error, and [method] is never recorded as filled. *)
Theorem envelope_validation (d : pydict) :
  errors (Validator_init d MethodRequest)
  = ((if truthy (dict_get d "arguments") then []
      else ["Field arguments should be exists"])
     ++ (if truthy (dict_get d "login") then []
         else ["Field login should be exists"])
     ++ (if truthy (dict_get d "method") then []
         else ["Field method should be exists"; "Field method should be filled"])
     ++ (if truthy (dict_get d "token") then []
         else ["Field token should be exists"]))%list
  /\ filled_fields (Validator_init d MethodRequest)
     = ["account"; "arguments"; "login"; "token"].
Proof.
  split.
  - cbv -[dict_get truthy].
    now destruct (truthy (dict_get d "arguments")), (truthy (dict_get d "login")),
      (truthy (dict_get d "method")), (truthy (dict_get d "token")).
  - cbv -[dict_get truthy].
    now destruct (truthy (dict_get d "arguments")), (truthy (dict_get d "login")),
      (truthy (dict_get d "method")), (truthy (dict_get d "token")).
Qed.

(** ** What the handlers can return *)

Section HandlerCases.

Variable scoring : Scoring.
Variables (request : pyval) (ctx : pydict) (store : pyval) (log : list call).

Lemma clients_interests_cases :
  handler_result log (clients_interests scoring request ctx store log).
Proof.
  unfold clients_interests, bind, lift, handler_result.
  destruct (getitem request "body") as [body|]; [|exact I].
  destruct (getitem body "arguments") as [arguments|]; [|exact I].
  destruct (Validator_new arguments ClientsInterestsRequest) as [v|]; [|exact I].
  destruct (is_valid v).
  - destruct (getitem arguments "client_ids") as [ids|]; [|exact I].
    destruct (iter ids) as [l|]; [|exact I].
    destruct (interests_by_id scoring store l [] log) as [[r|] log']; [|exact I].
    destruct (len ids); [|exact I]. now left.
  - destruct (first_error (errors v)); [|exact I]. right. now repeat split.
Qed.

Lemma score_handler_cases :
  handler_result log (score_handler scoring request ctx store log).
Proof.
  unfold score_handler, bind, lift, handler_result.
  destruct (getitem request "body") as [body|]; [|exact I].
  destruct (getitem body "arguments") as [arguments|]; [|exact I].
  destruct (get arguments "email"); [|exact I].
  destruct (get arguments "phone"); [|exact I].
  destruct (get arguments "first_name"); [|exact I].
  destruct (get arguments "last_name"); [|exact I].
  destruct (get arguments "gender"); [|exact I].
  destruct (get arguments "birthday"); [|exact I].
  destruct (enough_information _ _ _ _ _ _).
  - destruct (Validator_new request OnlineScoreRequest) as [v|]; [|exact I].
    destruct (is_valid v).
    + destruct (getitem body "login") as [login_|]; [|exact I].
      destruct (eq_str login_ ADMIN_LOGIN); now left.
    + destruct (first_error (errors v)); [|exact I]. right. now repeat split.
  - right. now repeat split.
Qed.

Lemma method_handler_cases :
  handler_result log (method_handler scoring request ctx store log).
Proof.
  unfold method_handler, bind, lift.
  destruct (getitem request "body") as [body|]; [|exact I].
  destruct (getitem body "method") as [method|]; [|exact I].
  destruct (negb (hashable method)); [exact I|].
  destruct (key_eqb (PyStr "clients_interests") method);
    [apply clients_interests_cases|].
  destruct (key_eqb (PyStr "online_score") method);
    [apply score_handler_cases|exact I].
Qed.

End HandlerCases.

(** ** What the adapter can answer *)

Section AdapterCases.

Variable scoring : Scoring.
Variable store : pyval.
Variables (path : string) (headers : pyval) (request_id : string).

Lemma read_request_cases (parsed : option pyval) :
  (exists request,
      read_request parsed = (PyDict [], BAD_REQUEST, request)
      /\ is_dict request = false
      /\ (parsed = None \/ parsed = Some request))
  \/ (exists d,
        parsed = Some (PyDict d)
        /\ is_valid (Validator_init d MethodRequest) = false
        /\ read_request parsed
           = (str_list (errors (Validator_init d MethodRequest)),
              INVALID_REQUEST, PyNone))
  \/ (exists d,
        parsed = Some (PyDict d)
        /\ is_valid (Validator_init d MethodRequest) = true
        /\ read_request parsed = (PyDict [], OK, PyDict d)).
Proof.
  destruct parsed as [request|]; [|left; exists PyNone; auto].
  destruct request as [| b | n | s | bs | l | d];
    try (left; eexists; split; [reflexivity|split; [reflexivity|auto]]).
  destruct (is_valid (Validator_init d MethodRequest)) eqn:Hv.
  - right. right. exists d. repeat split; auto. now apply read_request_valid.
  - right. left. exists d. repeat split; auto. now apply read_request_invalid.
Qed.

Lemma dispatch_cases (request response0 : pyval) (code0 code : Z)
    (body : pyval) (log : list call) :
  truthy response0 = false ->
  truthy request = true \/ In code0 [400%Z; 422%Z] ->
  (let '(response, code, log) :=
     if truthy request then
       if strip path "/" =? "method" then
         match method_handler scoring
                 (PyDict [(PyStr "body", request); (PyStr "headers", headers)])
                 [(PyStr "request_id", PyStr request_id)] store [] with
         | (inl (response', code', _), log) => (response', code', log)
         | (inr _, log) => (response0, INTERNAL_ERROR, log)
         end
       else (response0, NOT_FOUND, [])
     else (response0, code0, []) in
   (code, reply response code, log)) = (code, body, log) ->
  (code = 200%Z /\ exists r,
      body = PyDict [(PyStr "response", r); (PyStr "code", PyInt 200)])
  \/ (In code [400%Z; 404%Z; 422%Z] /\ log = []
      /\ exists e, truthy e = true /\ body = error_body e code)
  \/ (code = 500%Z /\ body = error_body (PyStr "Internal Server Error") 500).
Proof.
  intros Hr0 Hor H.
  destruct (truthy request).
  - destruct (strip path "/" =? "method").
    + pose proof (method_handler_cases scoring
                    (PyDict [(PyStr "body", request); (PyStr "headers", headers)])
                    [(PyStr "request_id", PyStr request_id)] store []) as Hh.
      destruct (method_handler _ _ _ _ _) as [[[[resp code'] ctx']|e] log'].
      * inversion H; subst; clear H. cbn [handler_result] in Hh.
        destruct Hh as [->|(-> & Ht & ->)].
        -- left. split; [reflexivity|]. eexists. reflexivity.
        -- right. left. repeat split; [cbn; auto|].
           exists resp. split; [exact Ht|]. unfold reply. cbn -[truthy].
           now rewrite Ht.
      * inversion H; subst; clear H. right. right. split; [reflexivity|].
        unfold reply. cbn -[truthy]. now rewrite Hr0.
    + inversion H; subst; clear H. right. left. repeat split; [cbn; auto|].
      eexists. split; [|unfold reply; cbn -[truthy]; rewrite Hr0; reflexivity].
      reflexivity.
  - destruct Hor as [Hor|Hor]; [discriminate|].
    inversion H; subst; clear H.
    right. left. repeat split; [cbn in *; tauto|].
    destruct Hor as [<-|[<-|[]]].
    + eexists. split; [|unfold reply; cbn -[truthy]; rewrite Hr0; reflexivity].
      reflexivity.
    + eexists. split; [|unfold reply; cbn -[truthy]; rewrite Hr0; reflexivity].
      reflexivity.
Qed.

Lemma do_POST_cases (parsed : option pyval) (code : Z) (body : pyval)
    (log : list call) :
  do_POST scoring store path headers request_id parsed = (code, body, log) ->
  (code = 200%Z /\ exists r,
      body = PyDict [(PyStr "response", r); (PyStr "code", PyInt 200)])
  \/ (In code [400%Z; 404%Z; 422%Z] /\ log = []
      /\ exists e, truthy e = true /\ body = error_body e code)
  \/ (code = 500%Z /\ body = error_body (PyStr "Internal Server Error") 500).
Proof.
  unfold do_POST.
  destruct (read_request_cases parsed)
    as [(request & -> & Hd & _)|[(d & -> & Hv & ->)|(d & -> & Hv & ->)]].
  - intros H. apply (dispatch_cases request (PyDict []) BAD_REQUEST); auto.
    right. now left.
  - destruct (invalid_has_first_error _ Hv) as (e & rest & He).
    rewrite He. cbn beta iota delta [truthy]. intros H.
    injection H as <- <- <-.
    right. left. repeat split; [cbn; auto|].
    exists (str_list (e :: rest)). split; reflexivity.
  - intros H. apply (dispatch_cases (PyDict d) (PyDict []) OK); auto.
    left. destruct d; [discriminate Hv|reflexivity].
Qed.

End AdapterCases.

Section AdapterAnswers.

Variable scoring : Scoring.
Variable store : pyval.
Variables (path : string) (headers : pyval) (request_id : string).


(** X9: the scoring module is called only on the way to a 200 or a 500:
    an answer 400, 404 or 422 was produced without any call. *)
Theorem no_call_unless_200_or_500 (parsed : option pyval) (code : Z)
    (body : pyval) (log : list call) :
  do_POST scoring store path headers request_id parsed = (code, body, log) ->
  log <> [] ->
  code = OK \/ code = INTERNAL_ERROR.
Proof.
  intros H Hlog. apply do_POST_cases in H.
  destruct H as [[-> _]|[(_ & -> & _)|[-> _]]]; auto. now destruct Hlog.
Qed.

Lemma Validator_new_non_dict (v : pyval) :
  is_dict v = false -> Validator_new v MethodRequest = inr AttributeError.
Proof. destruct v; try discriminate; reflexivity. Qed.

Lemma method_handler_non_dict_body (v : pyval) (ctx : pydict) (log : list call) :
  is_dict v = false ->
  method_handler scoring (PyDict [(PyStr "body", v); (PyStr "headers", headers)])
    ctx store log
  = (inr TypeError, log).
Proof. destruct v; try discriminate; reflexivity. Qed.

(** X10: a body that is not a JSON object.  When reading or parsing
    fails, and when the value parsed is falsy, the answer is 400; a truthy
    value that is not an object is still dispatched, and is answered 500
    on the method route and 404 elsewhere. *)
Theorem non_object_body :
  do_POST scoring store path headers request_id None
  = (400%Z, error_body (PyStr "Bad Request") 400, [])
  /\ forall v,
       is_dict v = false ->
       do_POST scoring store path headers request_id (Some v)
       = if truthy v then
           if strip path "/" =? "method" then
             (500%Z, error_body (PyStr "Internal Server Error") 500, [])
           else (404%Z, error_body (PyStr "Not Found") 404, [])
         else (400%Z, error_body (PyStr "Bad Request") 400, []).
Proof.
  split; [reflexivity|]. intros v Hv. unfold do_POST, read_request.
  rewrite (Validator_new_non_dict v Hv). cbn beta iota.
  destruct (truthy v); [|reflexivity].
  destruct (strip path "/" =? "method"); [|reflexivity].
  now rewrite (method_handler_non_dict_body v _ _ Hv).
Qed.

Lemma do_POST_dispatch (d : pydict) :
  is_valid (Validator_init d MethodRequest) = true ->
  strip path "/" = "method" ->
  do_POST scoring store path headers request_id (Some (PyDict d))
  = match method_handler scoring
            (PyDict [(PyStr "body", PyDict d); (PyStr "headers", headers)])
            [(PyStr "request_id", PyStr request_id)] store [] with
    | (inl (response, code, _), log) => (code, reply response code, log)
    | (inr _, log) =>
        (500%Z, error_body (PyStr "Internal Server Error") 500, log)
    end.
Proof.
  intros Hv Hp. unfold do_POST. rewrite (read_request_valid d Hv).
  assert (Ht : truthy (PyDict d) = true)
    by (destruct d; [discriminate Hv|reflexivity]).
  rewrite Ht, Hp. cbn [String.eqb Ascii.eqb Bool.eqb].
  destruct (method_handler _ _ _ _ _) as [[[[r c] ctx']|e] log]; reflexivity.
Qed.

Lemma valid_envelope_fields (d : pydict) :
  is_valid (Validator_init d MethodRequest) = true ->
  truthy (dict_get d "arguments") = true /\ truthy (dict_get d "login") = true
  /\ truthy (dict_get d "method") = true /\ truthy (dict_get d "token") = true.
Proof.
  rewrite method_request_validator.
  destruct (truthy (dict_get d "arguments")), (truthy (dict_get d "login")),
    (truthy (dict_get d "method")), (truthy (dict_get d "token"));
    simpl; intros H; try discriminate H; auto.
Qed.

Lemma key_eqb_str (s : string) (m : pyval) :
  key_eqb (PyStr s) m = true -> m = PyStr s.
Proof.
  destruct m; simpl; try discriminate. intros H.
  apply String.eqb_eq in H. now subst.
Qed.

(** X11: an accepted envelope on the method route whose [method] is none
    of the two known names is answered 500, without any call. *)
Theorem unknown_method_is_500 (d : pydict) :
  is_valid (Validator_init d MethodRequest) = true ->
  strip path "/" = "method" ->
  dict_get d "method" <> PyStr "clients_interests" ->
  dict_get d "method" <> PyStr "online_score" ->
  do_POST scoring store path headers request_id (Some (PyDict d))
  = (500%Z, error_body (PyStr "Internal Server Error") 500, []).
Proof.
  intros Hv Hp H1 H2. rewrite (do_POST_dispatch d Hv Hp).
  destruct (valid_envelope_fields d Hv) as (_ & _ & Hm & _).
  unfold method_handler, bind, lift.
  assert (Hbody : getitem (PyDict [(PyStr "body", PyDict d);
                                   (PyStr "headers", headers)]) "body"
                  = inl (PyDict d)) by reflexivity.
  rewrite Hbody.
  rewrite (dict_get_getitem d "method" _ eq_refl (truthy_not_None _ Hm)).
  destruct (negb (hashable (dict_get d "method"))); [reflexivity|].
  destruct (key_eqb (PyStr "clients_interests") (dict_get d "method")) eqn:E1;
    [now apply key_eqb_str in E1|].
  destruct (key_eqb (PyStr "online_score") (dict_get d "method")) eqn:E2;
    [now apply key_eqb_str in E2|].
  reflexivity.
Qed.

(** X12: an accepted envelope on the method route whose [arguments] are
    not an object is answered 500 by either method, without any call. *)
Theorem non_object_arguments_are_500 (d : pydict) :
  is_valid (Validator_init d MethodRequest) = true ->
  strip path "/" = "method" ->
  dict_get d "method" = PyStr "clients_interests"
  \/ dict_get d "method" = PyStr "online_score" ->
  is_dict (dict_get d "arguments") = false ->
  do_POST scoring store path headers request_id (Some (PyDict d))
  = (500%Z, error_body (PyStr "Internal Server Error") 500, []).
Proof.
  intros Hv Hp Hm Ha. rewrite (do_POST_dispatch d Hv Hp).
  destruct (valid_envelope_fields d Hv) as (Hta & _ & Htm & _).
  unfold method_handler, bind, lift.
  assert (Hbody : getitem (PyDict [(PyStr "body", PyDict d);
                                   (PyStr "headers", headers)]) "body"
                  = inl (PyDict d)) by reflexivity.
  rewrite Hbody.
  rewrite (dict_get_getitem d "method" _ eq_refl (truthy_not_None _ Htm)).
  pose proof (dict_get_getitem d "arguments" _ eq_refl (truthy_not_None _ Hta))
    as Hargs.
  destruct Hm as [-> | ->]; cbn [hashable negb key_eqb String.eqb Ascii.eqb Bool.eqb].
  - unfold clients_interests, bind, lift. rewrite Hbody, Hargs.
    destruct (dict_get d "arguments"); try discriminate Ha; reflexivity.
  - unfold score_handler, bind, lift. rewrite Hbody, Hargs.
    destruct (dict_get d "arguments"); try discriminate Ha; reflexivity.
Qed.

End AdapterAnswers.

(** ** Which paths reach the handlers *)

Lemma lstrip_slashes (a : nat) (s : string) :
  lstrip "/" (slashes a ++ s) = lstrip "/" s.
Proof. induction a as [|a IH]; [reflexivity|exact IH]. Qed.

Lemma lstrip_split (s : string) : exists a, s = slashes a ++ lstrip "/" s.
Proof.
  induction s as [|c s [a IH]]; [now exists O|]. cbn [lstrip].
  destruct (Ascii.eqb c "/") eqn:E.
  - apply Ascii.eqb_eq in E. subst c. exists (S a). cbn. now rewrite <- IH.
  - now exists O.
Qed.

Lemma rstrip_only_slashes (b : nat) : rstrip "/" (slashes b) = "".
Proof. induction b as [|b IH]; [reflexivity|]. cbn. now rewrite IH. Qed.

Lemma rstrip_slashes (s : string) (b : nat) :
  rstrip "/" (s ++ slashes b) = rstrip "/" s.
Proof.
  induction s as [|c s IH]; [apply rstrip_only_slashes|].
  cbn [append rstrip]. now rewrite IH.
Qed.

Lemma rstrip_split (s : string) : exists b, s = rstrip "/" s ++ slashes b.
Proof.
  induction s as [|c s [b IH]]; [now exists O|]. cbn [rstrip].
  destruct (rstrip "/" s) as [|c' s'] eqn:E.
  - destruct (Ascii.eqb c "/") eqn:Ec.
    + apply Ascii.eqb_eq in Ec. subst c. exists (S b). cbn. now rewrite IH.
    + exists b. cbn. now rewrite IH at 1.
  - exists b. cbn [append]. now rewrite IH at 1.
Qed.

Lemma strip_method_iff (path : string) :
  strip path "/" = "method" <->
  exists a b, path = slashes a ++ "method" ++ slashes b.
Proof.
  unfold strip. split.
  - intros H. destruct (lstrip_split path) as [a Ha].
    destruct (rstrip_split (lstrip "/" path)) as [b Hb].
    exists a, b. rewrite Ha at 1. rewrite Hb at 1. now rewrite H.
  - intros (a & b & ->). rewrite lstrip_slashes.
    change (lstrip "/" ("method" ++ slashes b)) with ("method" ++ slashes b).
    now rewrite rstrip_slashes.
Qed.

Section Routing.

Variable scoring : Scoring.
Variable store : pyval.
Variables (path : string) (headers : pyval) (request_id : string).

(** X13: an accepted envelope reaches a handler exactly on the paths made
    of [method] between any number of slashes; on every other path, and
    only there, it is answered 404. *)
Theorem accepted_envelope_404_iff (d : pydict) (code : Z) (body : pyval)
    (log : list call) :
  is_valid (Validator_init d MethodRequest) = true ->
  do_POST scoring store path headers request_id (Some (PyDict d))
  = (code, body, log) ->
  (code = NOT_FOUND <->
   ~ exists a b, path = slashes a ++ "method" ++ slashes b)
  /\ (code = NOT_FOUND ->
      body = error_body (PyStr "Not Found") 404 /\ log = []).
Proof.
  intros Hv H. rewrite <- strip_method_iff.
  destruct (strip path "/" =? "method") eqn:E.
  - apply String.eqb_eq in E. rewrite (do_POST_dispatch _ _ _ _ _ d Hv E) in H.
    pose proof (method_handler_cases scoring
                  (PyDict [(PyStr "body", PyDict d); (PyStr "headers", headers)])
                  [(PyStr "request_id", PyStr request_id)] store []) as Hh.
    destruct (method_handler _ _ _ _ _) as [[[[r c] ctx']|e] log'].
    + injection H as <- _ _. cbn [handler_result] in Hh.
      assert (Hc : c <> NOT_FOUND) by (destruct Hh as [->|[-> _]]; discriminate).
      split; [tauto|]. intros Hn. now destruct Hc.
    + injection H as <- _ _. split; [|discriminate].
      split; [discriminate|tauto].
  - unfold do_POST in H. rewrite (read_request_valid d Hv) in H.
    assert (Ht : truthy (PyDict d) = true)
      by (destruct d; [discriminate Hv|reflexivity]).
    rewrite Ht, E in H. injection H as <- <- <-.
    apply String.eqb_neq in E. repeat split; auto.
Qed.

Lemma method_handler_body_ext (d1 d2 : pydict) (ctx : pydict) (log : list call) :
  getitem (PyDict d1) "method" = getitem (PyDict d2) "method" ->
  getitem (PyDict d1) "arguments" = getitem (PyDict d2) "arguments" ->
  getitem (PyDict d1) "login" = getitem (PyDict d2) "login" ->
  method_handler scoring
    (PyDict [(PyStr "body", PyDict d1); (PyStr "headers", headers)]) ctx store log
  = method_handler scoring
      (PyDict [(PyStr "body", PyDict d2); (PyStr "headers", headers)]) ctx store log.
Proof.
  intros Hm Ha Hl.
  assert (Hb : forall d, getitem (PyDict [(PyStr "body", PyDict d);
                                          (PyStr "headers", headers)]) "body"
                         = inl (PyDict d)) by reflexivity.
  unfold method_handler, bind, lift. rewrite !Hb, Hm.
  destruct (getitem (PyDict d2) "method") as [method|]; [|reflexivity].
  destruct (negb (hashable method)); [reflexivity|].
  destruct (key_eqb (PyStr "clients_interests") method).
  - unfold clients_interests, bind, lift. now rewrite !Hb, Ha.
  - destruct (key_eqb (PyStr "online_score") method); [|reflexivity].
    unfold score_handler, bind, lift. rewrite !Hb, Ha, Hl.
    cbn [Validator_new]. now rewrite !online_score_validator.
Qed.

Lemma do_POST_body_ext (d1 d2 : pydict) :
  is_valid (Validator_init d1 MethodRequest) = true ->
  is_valid (Validator_init d2 MethodRequest) = true ->
  getitem (PyDict d1) "method" = getitem (PyDict d2) "method" ->
  getitem (PyDict d1) "arguments" = getitem (PyDict d2) "arguments" ->
  getitem (PyDict d1) "login" = getitem (PyDict d2) "login" ->
  do_POST scoring store path headers request_id (Some (PyDict d1))
  = do_POST scoring store path headers request_id (Some (PyDict d2)).
Proof.
  intros Hv1 Hv2 Hm Ha Hl.
  destruct (strip path "/" =? "method") eqn:E.
  - apply String.eqb_eq in E.
    rewrite (do_POST_dispatch _ _ _ _ _ d1 Hv1 E),
      (do_POST_dispatch _ _ _ _ _ d2 Hv2 E).
    now rewrite (method_handler_body_ext d1 d2 _ _ Hm Ha Hl).
  - unfold do_POST.
    rewrite (read_request_valid d1 Hv1), (read_request_valid d2 Hv2).
    assert (Ht : forall d, is_valid (Validator_init d MethodRequest) = true ->
                           truthy (PyDict d) = true)
      by (intros [|x d] H; [discriminate H|reflexivity]).
    now rewrite (Ht d1 Hv1), (Ht d2 Hv2), E.
Qed.

Lemma getitem_set_other (d : pydict) (k : string) (v : pyval) (n : string) :
  (k =? n) = false ->
  getitem (PyDict (dict_set d (PyStr k) v)) n = getitem (PyDict d) n.
Proof.
  intros E. unfold getitem. rewrite dict_lookup_set. cbn [key_eqb]. now rewrite E.
Qed.

(** X14: nothing checks the token, and nothing reads the account.  For an
    accepted envelope, putting any other truthy value in place of the
    token, or any value at all in place of the account, gives the same
    status, the same body and the same calls. *)
Theorem token_and_account_are_never_checked (d : pydict) (v : pyval) :
  is_valid (Validator_init d MethodRequest) = true ->
  (truthy v = true ->
   do_POST scoring store path headers request_id
     (Some (PyDict (dict_set d (PyStr "token") v)))
   = do_POST scoring store path headers request_id (Some (PyDict d)))
  /\ do_POST scoring store path headers request_id
       (Some (PyDict (dict_set d (PyStr "account") v)))
     = do_POST scoring store path headers request_id (Some (PyDict d)).
Proof.
  intros Hv. destruct (valid_envelope_fields d Hv) as (Ha & Hl & Hm & Ht).
  split; [intros Htv|]; apply do_POST_body_ext; auto;
    try (apply getitem_set_other; reflexivity);
    rewrite method_request_validator, !dict_get_set;
    cbn [String.eqb Ascii.eqb Bool.eqb]; rewrite ?Ha, ?Hl, ?Hm, ?Ht, ?Htv;
    reflexivity.
Qed.

End Routing.

(** ** More on the interests handler *)

Lemma iter_nonempty_truthy (o : pyval) (l : list pyval) :
  iter o = inl l -> l <> [] -> truthy o = true.
Proof.
  destruct o as [| x | n | s | bs | l0 | d]; simpl; try discriminate;
    intros H Hl; inversion H; subst; clear H.
  - destruct s; [now destruct Hl|reflexivity].
  - destruct bs; [now destruct Hl|reflexivity].
  - destruct l; [now destruct Hl|reflexivity].
  - destruct d; [now destruct Hl|reflexivity].
Qed.

Lemma forallb_false_split {A : Type} (p : A -> bool) (l : list A) :
  forallb p l = false ->
  exists pre bad post,
    l = (pre ++ bad :: post)%list /\ forallb p pre = true /\ p bad = false.
Proof.
  induction l as [|x l IH]; simpl; [discriminate|].
  destruct (p x) eqn:E; simpl.
  - intros H. destruct (IH H) as (pre & bad & post & -> & Hpre & Hbad).
    exists (x :: pre), bad, post. simpl. rewrite E. auto.
  - intros _. exists [], x, l. auto.
Qed.

Lemma dict_set_fresh (d : pydict) (k v : pyval) :
  (forall k', In k' (map fst d) -> key_eqb k' k = false) ->
  dict_set d k v = (d ++ [(k, v)])%list.
Proof.
  induction d as [|[k1 v1] d IH]; simpl; intros H; [reflexivity|].
  rewrite (H k1 (or_introl eq_refl)). rewrite IH; auto.
Qed.

Section InterestsMore.

Variable scoring : Scoring.
Variables (ctx : pydict) (store : pyval).

Lemma interests_by_id_unhashable (pre : list pyval) (bad : pyval)
    (post : list pyval) :
  forallb hashable pre = true ->
  hashable bad = false ->
  forall acc log,
    interests_by_id scoring store (pre ++ bad :: post) acc log
    = (inr TypeError, (log ++ map (GetInterests store) (pre ++ [bad]))%list).
Proof.
  intros Hpre Hbad. induction pre as [|x pre IH]; intros acc log; simpl.
  - unfold call_get_interests, tell, ret, bind, raise. cbn beta iota.
    now rewrite Hbad.
  - simpl in Hpre. apply andb_prop in Hpre. destruct Hpre as [Hx Hpre].
    unfold call_get_interests, tell, ret, bind. cbn beta iota. rewrite Hx.
    rewrite (IH Hpre). now rewrite <- app_assoc.
Qed.

Lemma interests_dict_distinct (l : list pyval) :
  ForallOrdPairs (fun a b => key_eqb a b = false) l ->
  forall acc,
    (forall k id, In k (map fst acc) -> In id l -> key_eqb k id = false) ->
    interests_dict scoring store l acc
    = (acc ++ map (fun id => (id, get_interests scoring store id)) l)%list.
Proof.
  unfold interests_dict.
  induction 1 as [|a l Ha Hl IH]; intros acc Hacc; simpl.
  - now rewrite app_nil_r.
  - rewrite dict_set_fresh by (intros k' Hk'; apply Hacc; [exact Hk'|now left]).
    rewrite IH.
    + now rewrite <- app_assoc.
    + intros k id Hk Hid. rewrite map_app in Hk. apply in_app_or in Hk.
      destruct Hk as [Hk|[<-|[]]].
      * apply Hacc; [exact Hk|now right].
      * rewrite Forall_forall in Ha. now apply Ha.
Qed.

Lemma clients_interests_run (request body : pyval) (d : pydict)
    (l : list pyval) (log : list call) :
  getitem request "body" = inl body ->
  getitem body "arguments" = inl (PyDict d) ->
  truthy (dict_get d "client_ids") = true ->
  iter (dict_get d "client_ids") = inl l ->
  clients_interests scoring request ctx store log
  = match interests_by_id scoring store l [] log with
    | (inl response, log') =>
        (inl (PyDict response, OK,
              dict_set ctx (PyStr "nclients") (PyInt (Z.of_nat (List.length l)))),
         log')
    | (inr e, log') => (inr e, log')
    end.
Proof.
  intros Hb Ha Ht Hit. unfold clients_interests, bind, lift. rewrite Hb, Ha.
  cbn [Validator_new]. rewrite clients_interests_validator.
  unfold is_valid. cbn [errors]. rewrite Ht.
  rewrite (dict_get_getitem d "client_ids" _ eq_refl (truthy_not_None _ Ht)).
  rewrite Hit, (iter_len _ _ Hit).
  now destruct (interests_by_id scoring store l [] log) as [[r|e] log'].
Qed.

(** X15: an id that cannot be a dictionary key (an array or an object)
    stops the handler with [TypeError]; by then [get_interests] has been
    called for the ids before it and for the offending id itself, and for
    none after it. *)
Theorem clients_interests_unhashable_id (request body : pyval) (d : pydict)
    (pre : list pyval) (bad : pyval) (post : list pyval) (log : list call) :
  getitem request "body" = inl body ->
  getitem body "arguments" = inl (PyDict d) ->
  iter (dict_get d "client_ids") = inl (pre ++ bad :: post)%list ->
  forallb hashable pre = true ->
  hashable bad = false ->
  clients_interests scoring request ctx store log
  = (inr TypeError, (log ++ map (GetInterests store) (pre ++ [bad]))%list).
Proof.
  intros Hb Ha Hit Hpre Hbad.
  assert (Ht : truthy (dict_get d "client_ids") = true).
  { apply (iter_nonempty_truthy _ _ Hit). now destruct pre. }
  rewrite (clients_interests_run request body d _ log Hb Ha Ht Hit).
  now rewrite (interests_by_id_unhashable pre bad post Hpre Hbad).
Qed.

(** X16: when the ids are hashable and no two of them are equal as
    dictionary keys, the response lists the ids in the order of the
    request, each once and with its own interests, and [nclients] is the
    number of entries of the response. *)
Theorem clients_interests_distinct_ids (request body : pyval) (d : pydict)
    (l : list pyval) (log : list call) :
  getitem request "body" = inl body ->
  getitem body "arguments" = inl (PyDict d) ->
  iter (dict_get d "client_ids") = inl l ->
  l <> [] ->
  forallb hashable l = true ->
  ForallOrdPairs (fun a b => key_eqb a b = false) l ->
  let response := map (fun id => (id, get_interests scoring store id)) l in
  clients_interests scoring request ctx store log
  = (inl (PyDict response, OK,
          dict_set ctx (PyStr "nclients")
            (PyInt (Z.of_nat (List.length response)))),
     (log ++ map (GetInterests store) l)%list).
Proof.
  intros Hb Ha Hit Hne Hh Hd response.
  assert (Ht : truthy (dict_get d "client_ids") = true)
    by exact (iter_nonempty_truthy _ _ Hit Hne).
  rewrite (clients_interests_run request body d _ log Hb Ha Ht Hit).
  rewrite (interests_by_id_hashable scoring store l Hh).
  rewrite (interests_dict_distinct l Hd []) by (intros k id []).
  unfold response. now rewrite length_map.
Qed.

End InterestsMore.

(** ** The status of a dispatched request *)

Lemma truthy_py_and (a b : pyval) : truthy (py_and a b) = truthy a && truthy b.
Proof. unfold py_and. destruct (truthy a) eqn:E; [reflexivity|exact E]. Qed.

Section DispatchedStatus.

Variable scoring : Scoring.
Variable store : pyval.
Variables (path : string) (headers : pyval) (request_id : string).

Lemma score_handler_not_enough (request body : pyval) (d ctx : pydict)
    (log : list call) :
  getitem request "body" = inl body ->
  getitem body "arguments" = inl (PyDict d) ->
  enough_information (dict_get d "email") (dict_get d "phone")
    (dict_get d "first_name") (dict_get d "last_name")
    (dict_get d "gender") (dict_get d "birthday") = false ->
  score_handler scoring request ctx store log
  = (inl (insufficient, INVALID_REQUEST, ctx), log).
Proof.
  intros Hb Ha He. unfold score_handler, bind, lift.
  rewrite Hb, Ha. cbn [get]. now rewrite He.
Qed.

(** X17: for an accepted envelope on the method route that asks for
    [online_score] with an object as arguments, the status is 200 exactly
    when one of the pairs (email, phone), (first_name, last_name), (gender,
    birthday) has both members truthy, and 422 otherwise; with 422 the body
    carries the message about the parameters and no call was made. *)
Theorem online_score_status (d a : pydict) :
  is_valid (Validator_init d MethodRequest) = true ->
  strip path "/" = "method" ->
  dict_get d "method" = PyStr "online_score" ->
  dict_get d "arguments" = PyDict a ->
  let complete :=
    truthy (dict_get a "email") && truthy (dict_get a "phone")
    || truthy (dict_get a "first_name") && truthy (dict_get a "last_name")
    || truthy (dict_get a "gender") && truthy (dict_get a "birthday") in
  fst (fst (do_POST scoring store path headers request_id (Some (PyDict d))))
  = (if complete then 200%Z else 422%Z)
  /\ (complete = false ->
      do_POST scoring store path headers request_id (Some (PyDict d))
      = (422%Z, error_body insufficient 422, [])).
Proof.
  intros Hv Hp Hm Ha complete.
  assert (He : enough_information (dict_get a "email") (dict_get a "phone")
                 (dict_get a "first_name") (dict_get a "last_name")
                 (dict_get a "gender") (dict_get a "birthday") = complete)
    by (unfold enough_information; now rewrite !truthy_py_and).
  destruct complete.
  - split; [|discriminate].
    rewrite (do_POST_online_score scoring store path headers request_id d a
               Hv Hp Hm Ha He).
    now destruct (eq_str (dict_get d "login") "admin").
  - assert (H : do_POST scoring store path headers request_id (Some (PyDict d))
                = (422%Z, error_body insufficient 422, [])).
    { rewrite (do_POST_dispatch _ _ _ _ _ d Hv Hp).
      unfold method_handler, bind, lift.
      assert (Hbody : getitem (PyDict [(PyStr "body", PyDict d);
                                       (PyStr "headers", headers)]) "body"
                      = inl (PyDict d)) by reflexivity.
      rewrite Hbody.
      rewrite (dict_get_getitem d "method" _ Hm) by discriminate.
      cbn [hashable negb key_eqb String.eqb Ascii.eqb Bool.eqb].
      rewrite (score_handler_not_enough _ _ a _ _ Hbody
                 (dict_get_getitem d "arguments" _ Ha ltac:(discriminate)) He).
      reflexivity. }
    split; [now rewrite H|intros _; exact H].
Qed.

(** X18: for an accepted envelope on the method route that asks for
    [clients_interests] with an object as arguments, the status is 422 when
    [client_ids] is missing or falsy, 200 when it is truthy, can be
    iterated and holds only hashable ids, and 500 in every other case. *)
Theorem clients_interests_status (d a : pydict) :
  is_valid (Validator_init d MethodRequest) = true ->
  strip path "/" = "method" ->
  dict_get d "method" = PyStr "clients_interests" ->
  dict_get d "arguments" = PyDict a ->
  fst (fst (do_POST scoring store path headers request_id (Some (PyDict d))))
  = if truthy (dict_get a "client_ids") then
      match iter (dict_get a "client_ids") with
      | inl l => if forallb hashable l then 200%Z else 500%Z
      | inr _ => 500%Z
      end
    else 422%Z.
Proof.
  intros Hv Hp Hm Ha. rewrite (do_POST_dispatch _ _ _ _ _ d Hv Hp).
  unfold method_handler, bind, lift.
  assert (Hbody : getitem (PyDict [(PyStr "body", PyDict d);
                                   (PyStr "headers", headers)]) "body"
                  = inl (PyDict d)) by reflexivity.
  assert (Hargs : getitem (PyDict d) "arguments" = inl (PyDict a))
    by (apply dict_get_getitem; [exact Ha|discriminate]).
  rewrite Hbody. rewrite (dict_get_getitem d "method" _ Hm) by discriminate.
  cbn [hashable negb key_eqb String.eqb Ascii.eqb Bool.eqb].
  destruct (truthy (dict_get a "client_ids")) eqn:Ht.
  - destruct (iter (dict_get a "client_ids")) as [l|e] eqn:Hit.
    + rewrite (clients_interests_run scoring _ store _ _ a l [] Hbody Hargs Ht Hit).
      destruct (forallb hashable l) eqn:Hh.
      * now rewrite (interests_by_id_hashable scoring store l Hh).
      * destruct (forallb_false_split _ _ Hh) as (pre & bad & post & -> & Hpre & Hbad).
        now rewrite (interests_by_id_unhashable scoring store pre bad post Hpre Hbad).
    + unfold clients_interests, bind, lift. rewrite Hbody, Hargs.
      cbn [Validator_new]. rewrite clients_interests_validator.
      unfold is_valid. cbn [errors]. rewrite Ht.
      rewrite (dict_get_getitem a "client_ids" _ eq_refl (truthy_not_None _ Ht)).
      now rewrite Hit.
  - assert (He : errors (Validator_init a ClientsInterestsRequest)
                 = ["Field client_ids should be exists"])
      by (rewrite clients_interests_validator; cbn [errors]; now rewrite Ht).
    now rewrite (clients_interests_invalid scoring _ store [] _ _ a _ _
                   Hbody Hargs He).
Qed.

End DispatchedStatus.

(** * [params_unification] *)

Lemma dict_set_at (pre : pydict) (k v v' : pyval) (post : pydict) :
  hashable k = true ->
  (forall k', In k' (map fst pre) -> key_eqb k' k = false) ->
  dict_set (pre ++ (k, v) :: post)%list k v' = (pre ++ (k, v') :: post)%list.
Proof.
  intros Hk. induction pre as [|[k1 v1] pre IH]; simpl; intros H.
  - now rewrite (key_eqb_refl k Hk).
  - rewrite (H k1 (or_introl eq_refl)). rewrite IH; auto.
Qed.

Lemma unify_param_prefix (current_dir : string) (post : pydict) :
  forall pre,
    distinct_keys (pre ++ post)%list ->
    fold_left (unify_param current_dir) post
      (map (fun kv => (fst kv, unified current_dir (snd kv))) pre ++ post)%list
    = map (fun kv => (fst kv, unified current_dir (snd kv))) (pre ++ post)%list.
Proof.
  induction post as [|[k v] post IH]; intros pre Hd; simpl.
  - now rewrite !app_nil_r.
  - assert (Hk : hashable k = true
                 /\ forall k', In k' (map fst pre) -> key_eqb k' k = false).
    { clear IH. induction pre as [|[k1 v1] pre IHp]; simpl in *.
      - split; [tauto|intros k' []].
      - destruct Hd as (H1 & H2 & H3). destruct (IHp H3) as [Hh Hp].
        split; [exact Hh|]. intros k' [<-|Hin]; [|now apply Hp].
        rewrite key_eqb_sym. apply H2. rewrite map_app. apply in_or_app.
        right. now left. }
    destruct Hk as [Hh Hpre].
    assert (Hstep : unify_param current_dir
                      (map (fun kv => (fst kv, unified current_dir (snd kv))) pre
                         ++ (k, v) :: post)%list (k, v)
                    = (map (fun kv => (fst kv, unified current_dir (snd kv)))
                         (pre ++ [(k, v)])%list ++ post)%list).
    { rewrite map_app, <- app_assoc. cbn [map app fst snd].
      unfold unify_param. cbn [fst snd].
      assert (Hpre' : forall k', In k' (map fst (map (fun kv : pyval * pyval =>
                         (fst kv, unified current_dir (snd kv))) pre)) ->
                       key_eqb k' k = false)
        by (rewrite map_map; exact Hpre).
      destruct v as [| b | n | s | bs | l | d]; try reflexivity.
      cbn [unified]. destruct (startswith s "./"); [|reflexivity].
      now apply dict_set_at. }
    rewrite Hstep. rewrite (IH (pre ++ [(k, v)])%list).
    + now rewrite <- app_assoc.
    + now rewrite <- app_assoc.
Qed.

Lemma params_unification_map (current_dir : string) (config : pydict) :
  distinct_keys config ->
  params_unification current_dir config
  = map (fun kv => (fst kv, unified current_dir (snd kv))) config.
Proof.
  intros Hd. exact (unify_param_prefix current_dir config [] Hd).
Qed.

Lemma unified_absolute (current_dir : string) (v : pyval) :
  startswith current_dir "/" = true ->
  is_relative (unified current_dir v) = false.
Proof.
  intros Hc. destruct v as [| b | n | s | bs | l | d]; try reflexivity.
  cbn [unified]. destruct (startswith s "./") eqn:E; [|exact E].
  cbn [is_relative]. unfold startswith in *.
  destruct current_dir as [|c cwd]; [now cbv in Hc|].
  cbn [String.prefix append] in *.
  destruct (ascii_dec "/" c) as [<-|Hne]; [reflexivity|discriminate Hc].
Qed.

Lemma distinct_keys_map (f : pyval -> pyval) (d : pydict) :
  distinct_keys d -> distinct_keys (map (fun kv => (fst kv, f (snd kv))) d).
Proof.
  induction d as [|[k v] d IH]; simpl; [tauto|].
  intros (H1 & H2 & H3). repeat split; auto.
  rewrite map_map. exact H2.
Qed.

(** X19: [params_unification] keeps the keys and their order, replaces
    every string value that starts with "./" by the current directory
    followed by the value without its first character, and leaves every
    other value as it is. *)
Theorem params_unification_values (current_dir : string) (config : pydict) :
  distinct_keys config ->
  map fst (params_unification current_dir config) = map fst config
  /\ forall k v,
       In (k, v) config ->
       In (k, if is_relative v
              then match v with
                   | PyStr value => PyStr (current_dir ++ slice_from_1 value)
                   | _ => v
                   end
              else v)
          (params_unification current_dir config).
Proof.
  intros Hd. rewrite (params_unification_map current_dir config Hd). split.
  - rewrite map_map. reflexivity.
  - intros k v Hin.
    apply (in_map (fun kv => (fst kv, unified current_dir (snd kv)))) in Hin.
    cbn [fst snd] in Hin.
    destruct v as [| b | n | s | bs | l | d]; exact Hin.
Qed.

(** X20: when the current directory is an absolute path, no value of the
    result starts with "./", and unifying the result again changes
    nothing. *)
Theorem params_unification_idempotent (current_dir : string) (config : pydict) :
  distinct_keys config ->
  startswith current_dir "/" = true ->
  (forall k v, In (k, v) (params_unification current_dir config) ->
               is_relative v = false)
  /\ params_unification current_dir (params_unification current_dir config)
     = params_unification current_dir config.
Proof.
  intros Hd Hc. rewrite (params_unification_map current_dir config Hd).
  assert (Hrel : forall k v,
             In (k, v) (map (fun kv => (fst kv, unified current_dir (snd kv))) config) ->
             is_relative v = false).
  { intros k v Hin. apply in_map_iff in Hin.
    destruct Hin as [[k0 v0] [Heq _]]. inversion Heq; subst.
    now apply unified_absolute. }
  split; [exact Hrel|].
  rewrite params_unification_map by now apply distinct_keys_map.
  rewrite map_map. cbn [fst snd]. apply map_ext_in.
  intros [k v] Hin. cbn [fst snd]. f_equal.
  pose proof (unified_absolute current_dir v Hc) as H.
  destruct (unified current_dir v) as [| b | n | s | bs | l | d]; try reflexivity.
  cbn [is_relative] in H. cbn [unified]. now rewrite H.
Qed.

(** * The further properties, on sample inputs *)

Lemma filling_a_field_adds_no_error_witness :
  truthy (PyStr "h&f") = true
  /\ incl (errors (Validator_init (dict_set [] (PyStr "login") (PyStr "h&f"))
                     MethodRequest))
          (errors (Validator_init [] MethodRequest))
  /\ ~ In "Field login should be exists"
         (errors (Validator_init (dict_set [] (PyStr "login") (PyStr "h&f"))
                    MethodRequest)).
Proof.
  split; [reflexivity|].
  destruct (filling_a_field_adds_no_error [] MethodRequest "login" (PyStr "h&f")
              eq_refl) as (H1 & _ & H3 & _).
  split; [exact H1|exact H3].
Defined.

Lemma validator_ignores_declaration_order_witness :
  Validator_init well_formed_envelope MethodRequest
  = Validator_init well_formed_envelope (rev MethodRequest).
Proof.
  apply validator_ignores_declaration_order.
  - apply Permutation_rev.
  - repeat constructor; simpl; intuition discriminate.
Defined.

Lemma BaseField_init_constrains_witness :
  constrains_of (BaseField_init [("required", true); ("value", true);
                                 ("nullable", false)])
  = [mkField "required" true; mkField "nullable" false].
Proof.
  apply (BaseField_init_constrains
           [("required", true); ("value", true); ("nullable", false)]).
  repeat constructor; simpl; intuition discriminate.
Defined.


Lemma no_call_unless_200_or_500_witness :
  [GetInterests PyNone (PyStr "1"); GetInterests PyNone (PyStr "2")] <> []
  /\ (200%Z = OK \/ 200%Z = INTERNAL_ERROR).
Proof.
  split; [discriminate|].
  apply (no_call_unless_200_or_500 sample_scoring PyNone "/method/" PyNone "1"
           (Some (PyDict two_clients_envelope)) 200%Z
           (PyDict [(PyStr "response",
                     PyDict [(PyStr "1", PyList [PyStr "1"]);
                             (PyStr "2", PyList [PyStr "2"])]);
                    (PyStr "code", PyInt 200)])
           [GetInterests PyNone (PyStr "1"); GetInterests PyNone (PyStr "2")]
           eq_refl).
  discriminate.
Defined.

Lemma non_object_body_witness :
  do_POST sample_scoring PyNone "/method/" PyNone "1" (Some (PyList [PyInt 1]))
  = (500%Z, error_body (PyStr "Internal Server Error") 500, [])
  /\ do_POST sample_scoring PyNone "/method/" PyNone "1" (Some (PyList []))
     = (400%Z, error_body (PyStr "Bad Request") 400, []).
Proof.
  split.
  - exact (proj2 (non_object_body sample_scoring PyNone "/method/" PyNone "1")
             (PyList [PyInt 1]) eq_refl).
  - exact (proj2 (non_object_body sample_scoring PyNone "/method/" PyNone "1")
             (PyList []) eq_refl).
Defined.

Lemma unknown_method_is_500_witness :
  do_POST sample_scoring PyNone "/method/" PyNone "1"
    (Some (PyDict (envelope "h&f" "no_such_method" (PyDict two_clients))))
  = (500%Z, error_body (PyStr "Internal Server Error") 500, []).
Proof.
  apply unknown_method_is_500; try reflexivity; discriminate.
Defined.

Lemma non_object_arguments_are_500_witness :
  do_POST sample_scoring PyNone "/method/" PyNone "1"
    (Some (PyDict (envelope "h&f" "online_score" (PyList [PyInt 1]))))
  = (500%Z, error_body (PyStr "Internal Server Error") 500, []).
Proof.
  apply non_object_arguments_are_500; try reflexivity. right. reflexivity.
Defined.

Lemma accepted_envelope_404_iff_witness :
  (404%Z = NOT_FOUND <->
   ~ exists a b, "/methods" = slashes a ++ "method" ++ slashes b)
  /\ (404%Z = NOT_FOUND ->
      error_body (PyStr "Not Found") 404 = error_body (PyStr "Not Found") 404
      /\ @nil call = []).
Proof.
  exact (accepted_envelope_404_iff sample_scoring PyNone "/methods" PyNone "1"
           two_clients_envelope 404%Z (error_body (PyStr "Not Found") 404) []
           eq_refl eq_refl).
Defined.

Lemma token_and_account_are_never_checked_witness :
  do_POST sample_scoring PyNone "/method/" PyNone "1"
    (Some (PyDict (dict_set two_clients_envelope (PyStr "token") (PyStr "x"))))
  = do_POST sample_scoring PyNone "/method/" PyNone "1"
      (Some (PyDict two_clients_envelope))
  /\ do_POST sample_scoring PyNone "/method/" PyNone "1"
       (Some (PyDict (dict_set two_clients_envelope (PyStr "account") PyNone)))
     = do_POST sample_scoring PyNone "/method/" PyNone "1"
         (Some (PyDict two_clients_envelope)).
Proof.
  destruct (token_and_account_are_never_checked sample_scoring PyNone "/method/"
              PyNone "1" two_clients_envelope (PyStr "x") eq_refl) as [H1 _].
  destruct (token_and_account_are_never_checked sample_scoring PyNone "/method/"
              PyNone "1" two_clients_envelope PyNone eq_refl) as [_ H2].
  split; [exact (H1 eq_refl)|exact H2].
Defined.

Lemma clients_interests_unhashable_id_witness :
  clients_interests sample_scoring
    (interests_request
       [(PyStr "client_ids", PyList [PyInt 1; PyList [PyInt 2]; PyInt 3])])
    [] PyNone []
  = (inr TypeError,
     [GetInterests PyNone (PyInt 1); GetInterests PyNone (PyList [PyInt 2])]).
Proof.
  exact (clients_interests_unhashable_id sample_scoring [] PyNone
           (interests_request
              [(PyStr "client_ids", PyList [PyInt 1; PyList [PyInt 2]; PyInt 3])])
           _ [(PyStr "client_ids", PyList [PyInt 1; PyList [PyInt 2]; PyInt 3])]
           [PyInt 1] (PyList [PyInt 2]) [PyInt 3] []
           eq_refl eq_refl eq_refl eq_refl eq_refl).
Defined.

Lemma clients_interests_distinct_ids_witness :
  clients_interests sample_scoring (interests_request two_clients) [] PyNone []
  = (inl (PyDict [(PyStr "1", PyList [PyStr "1"]); (PyStr "2", PyList [PyStr "2"])],
          OK, [(PyStr "nclients", PyInt 2)]),
     [GetInterests PyNone (PyStr "1"); GetInterests PyNone (PyStr "2")]).
Proof.
  apply (clients_interests_distinct_ids sample_scoring [] PyNone
           (interests_request two_clients) _ two_clients
           [PyStr "1"; PyStr "2"] [] eq_refl eq_refl eq_refl).
  - discriminate.
  - reflexivity.
  - repeat constructor.
Defined.

Lemma online_score_status_witness :
  fst (fst (do_POST sample_scoring PyNone "/method/" PyNone "1"
              (Some (PyDict (envelope "h&f" "online_score"
                               (PyDict phone_and_email))))))
  = 200%Z
  /\ fst (fst (do_POST sample_scoring PyNone "/method/" PyNone "1"
                 (Some (PyDict well_formed_envelope))))
     = 422%Z.
Proof.
  split.
  - exact (proj1 (online_score_status sample_scoring PyNone "/method/" PyNone "1"
                    (envelope "h&f" "online_score" (PyDict phone_and_email))
                    phone_and_email eq_refl eq_refl eq_refl eq_refl)).
  - exact (proj1 (online_score_status sample_scoring PyNone "/method/" PyNone "1"
                    well_formed_envelope
                    [(PyStr "phone", PyStr "79175002040")]
                    eq_refl eq_refl eq_refl eq_refl)).
Defined.

Lemma clients_interests_status_witness :
  fst (fst (do_POST sample_scoring PyNone "/method/" PyNone "1"
              (Some (PyDict two_clients_envelope))))
  = 200%Z
  /\ fst (fst (do_POST sample_scoring PyNone "/method/" PyNone "1"
                 (Some (PyDict (envelope "h&f" "clients_interests"
                                  (PyDict [(PyStr "client_ids", PyInt 5)]))))))
     = 500%Z.
Proof.
  split.
  - exact (clients_interests_status sample_scoring PyNone "/method/" PyNone "1"
             two_clients_envelope two_clients eq_refl eq_refl eq_refl eq_refl).
  - exact (clients_interests_status sample_scoring PyNone "/method/" PyNone "1"
             (envelope "h&f" "clients_interests"
                (PyDict [(PyStr "client_ids", PyInt 5)]))
             [(PyStr "client_ids", PyInt 5)] eq_refl eq_refl eq_refl eq_refl).
Defined.

Lemma sample_config_distinct_keys : distinct_keys sample_config.
Proof.
  simpl. repeat split; intros k' H; simpl in H;
    repeat (destruct H as [<-|H]; [reflexivity|]); destruct H.
Defined.

Lemma params_unification_values_witness :
  map fst (params_unification "/home/otus" sample_config) = map fst sample_config
  /\ In (PyStr "REPORT_DIR", PyStr "/home/otus/reports")
        (params_unification "/home/otus" sample_config)
  /\ In (PyStr "LOG_DIR", PyStr "/var/log/nginx")
        (params_unification "/home/otus" sample_config).
Proof.
  destruct (params_unification_values "/home/otus" sample_config
              sample_config_distinct_keys) as [H1 H2].
  split; [exact H1|]. split.
  - exact (H2 (PyStr "REPORT_DIR") (PyStr "./reports") (or_intror (or_introl eq_refl))).
  - exact (H2 (PyStr "LOG_DIR") (PyStr "/var/log/nginx")
             (or_intror (or_intror (or_introl eq_refl)))).
Defined.

Lemma params_unification_idempotent_witness :
  params_unification "/home/otus" (params_unification "/home/otus" sample_config)
  = params_unification "/home/otus" sample_config.
Proof.
  exact (proj2 (params_unification_idempotent "/home/otus" sample_config
                  sample_config_distinct_keys eq_refl)).
Defined.
